(** * e-pharma payment service: the payment state reconciliation handlers

    A shallow embedding of [src/models.py] and of the four request handlers of
    [src/payment_service/main.py] ([create_payment], [get_payment],
    [refund_payment], [stripe_webhook]).

    - The [payments] table is a finite map from the primary key [payment_id]
      to the row ([gmap string PaymentModel.t]).
    - A handler is a computation in a small state-and-exception monad [M]:
      the state is the committed content of the table, an exception leaves
      the committed content as it is.
    - The payment processor (the [stripe] package) is an external
      collaborator: its four entry points are the fields of a [StripeAPI]
      record, so that every handler is a function of what the processor
      answers.
    - [uuid.uuid4()] and [datetime.utcnow()] are inputs of [create_payment].

    The FastAPI layer around the handlers (routing, the [verify_api_key]
    dependency, the serialisation of the returned object through
    [response_model]) is not part of the embedding. *)

From Stdlib Require Import ZArith String Ascii Floats.
From stdpp Require Import gmap strings.

Local Open Scope Z_scope.
Local Open Scope string_scope.

(** ** Python values used by the handlers *)

(** The exceptions the handlers raise, catch or let through.
    [SignatureVerificationError] is a subclass of [stripe.error.StripeError];
    [StripeError] stands for every other member of that class. *)
Inductive exn : Type :=
| HTTPException (status_code : Z) (detail : string)
| StripeError (msg : string)
| SignatureVerificationError (msg : string)
| ValueError (msg : string)
| OverflowError (msg : string)
| IntegrityError (msg : string)
| AttributeError (msg : string).

(** [str(e)] *)
Definition str (e : exn) : string :=
  match e with
  | HTTPException _ detail => detail
  | StripeError msg | SignatureVerificationError msg | ValueError msg
  | OverflowError msg | IntegrityError msg | AttributeError msg => msg
  end.

(** [isinstance(e, stripe.error.StripeError)] *)
Definition is_StripeError (e : exn) : bool :=
  match e with
  | StripeError _ | SignatureVerificationError _ => true
  | _ => false
  end.

(** [isinstance(e, (ValueError, stripe.error.SignatureVerificationError))] *)
Definition is_ValueError_or_SignatureVerificationError (e : exn) : bool :=
  match e with
  | ValueError _ | SignatureVerificationError _ => true
  | _ => false
  end.

(** Truth value of an [Optional[str]]: [None] and the empty string are
    falsy. *)
Definition truthy (o : option string) : bool :=
  match o with
  | Some s => negb (s =? "")
  | None => false
  end.

(** [str.lower()] on the ASCII range. *)
Definition lower_ascii (c : ascii) : ascii :=
  let n := nat_of_ascii c in
  if ((65 <=? n) && (n <=? 90))%nat then ascii_of_nat (n + 32) else c.

Fixpoint lower (s : string) : string :=
  match s with
  | EmptyString => EmptyString
  | String c s' => String (lower_ascii c) (lower s')
  end.

(** [int(x)] for a binary64 float: truncation toward zero, [ValueError] on a
    NaN and [OverflowError] on an infinity. *)
Definition int_of_float (x : float) : exn + Z :=
  match Prim2SF x with
  | S754_zero _ => inr 0
  | S754_infinity _ => inl (OverflowError "cannot convert float infinity to integer")
  | S754_nan => inl (ValueError "cannot convert float NaN to integer")
  | S754_finite s m e =>
      let mag := if (0 <=? e)%Z then Z.shiftl (Z.pos m) e else Z.shiftr (Z.pos m) (- e) in
      inr (if s then - mag else mag)
  end.

(** A naive [datetime] and its [isoformat()]. *)
Record datetime : Type := mk_datetime {
  year : Z; month : Z; day : Z;
  hour : Z; minute : Z; second : Z; microsecond : Z
}.

Fixpoint zfill (width : nat) (n : Z) : string :=
  match width with
  | O => ""
  | S w => zfill w (n / 10) ++ String (ascii_of_nat (48 + Z.to_nat (n mod 10))) ""
  end.

Definition isoformat (d : datetime) : string :=
  zfill 4 (year d) ++ "-" ++ zfill 2 (month d) ++ "-" ++ zfill 2 (day d) ++ "T"
  ++ zfill 2 (hour d) ++ ":" ++ zfill 2 (minute d) ++ ":" ++ zfill 2 (second d)
  ++ (if (microsecond d =? 0)%Z then "" else "." ++ zfill 6 (microsecond d)).

(** ** models.py *)

Inductive PaymentStatus : Type := PENDING | CONFIRMED | FAILED | REFUNDED.

#[global] Instance PaymentStatus_eq_dec : EqDecision PaymentStatus.
Proof. solve_decision. Defined.

Module PaymentModel.
(** One row of the [payments] table; [payment_id] is the primary key. *)
Record t : Type := mk {
  payment_id : string;
  status : PaymentStatus;
  amount : float;
  currency : string;
  order_id : string;
  customer_id : option string;
  payment_method : string;
  created_at : option datetime;
  metadata : option (gmap string string);
  stripe_payment_intent_id : option string;
  stripe_session_id : option string
}.

(** [payment.status = st] *)
Definition set_status (st : PaymentStatus) (p : t) : t :=
  mk (payment_id p) st (amount p) (currency p) (order_id p) (customer_id p)
     (payment_method p) (created_at p) (metadata p)
     (stripe_payment_intent_id p) (stripe_session_id p).

(** [payment.stripe_payment_intent_id = pi] *)
Definition set_stripe_payment_intent_id (pi : option string) (p : t) : t :=
  mk (payment_id p) (status p) (amount p) (currency p) (order_id p) (customer_id p)
     (payment_method p) (created_at p) (metadata p)
     pi (stripe_session_id p).

(** [Column(DateTime, default=datetime.utcnow)]: the default is filled in
    when the row is inserted without a value. *)
Definition default_created_at (now : datetime) (p : t) : t :=
  mk (payment_id p) (status p) (amount p) (currency p) (order_id p) (customer_id p)
     (payment_method p)
     (match created_at p with Some d => Some d | None => Some now end)
     (metadata p) (stripe_payment_intent_id p) (stripe_session_id p).
End PaymentModel.

(** The committed content of the [payments] table. *)
Abbreviation Store := (gmap string PaymentModel.t).

(** ** The request and response bodies of main.py *)

Module PaymentRequest.
Record t : Type := mk {
  amount : float;
  currency : string;
  order_id : string;
  payment_method : string;
  customer_id : option string;
  metadata : option (gmap string string);
  return_url : string;
  cancel_url : string
}.
End PaymentRequest.

Module PaymentResponse.
Record t : Type := mk {
  payment_id : string;
  status : PaymentStatus;
  amount : float;
  currency : string;
  created_at : string;
  order_id : string;
  checkout_url : option string
}.
End PaymentResponse.

(** ** The processor client *)

Module Session.
(** The fields of a Stripe checkout session the handlers read. *)
Record t : Type := mk {
  id : string;
  url : option string;
  payment_status : string;
  status : string;
  payment_intent : option string;
  metadata : gmap string string
}.
End Session.

Module SessionParams.
(** The keyword arguments of [stripe.checkout.Session.create] that depend
    on the request; [payment_method_types], [quantity] and [mode] are
    constants. *)
Record t : Type := mk {
  currency : string;
  unit_amount : Z;
  product_name : string;
  success_url : string;
  cancel_url : string;
  metadata : gmap string string
}.
End SessionParams.

Module Refund.
Record t : Type := mk { status : string }.
End Refund.

Module Event.
(** [event.type] and [event.data.object]. *)
Record t : Type := mk {
  type : string;
  data_object : Session.t
}.
End Event.

(** What the processor answers at the time a request is handled: a raised
    exception ([inl]) or a returned object ([inr]). *)
Record StripeAPI : Type := mk_StripeAPI {
  checkout_Session_create : SessionParams.t → exn + Session.t;
  checkout_Session_retrieve : option string → exn + Session.t;
  Refund_create : option string → exn + Refund.t;
  Webhook_construct_event : string → option string → option string → exn + Event.t
}.

(** ** The handler monad *)

(** A computation reads and updates the committed table and either raises
    or returns. *)
Definition M (A : Type) : Type := Store → (exn + A) * Store.

#[global] Instance M_ret : MRet M := λ A (a : A) (db : Store), (inr a, db).

#[global] Instance M_bind : MBind M := λ A B (f : A → M B) (m : M A) (db : Store),
  match m db with
  | (inl e, db') => (inl e, db')
  | (inr a, db') => f a db'
  end.

#[global] Instance M_fmap : FMap M := λ A B (f : A → B) (m : M A) (db : Store),
  match m db with
  | (inl e, db') => (inl e, db')
  | (inr a, db') => (inr (f a), db')
  end.

(** [raise e] *)
Definition raise {A : Type} (e : exn) : M A := λ db, (inl e, db).

(** A call that raises or returns without touching the table. *)
Definition call {A : Type} (r : exn + A) : M A := λ db, (r, db).

(** [try: body / except <caught> as e: handler(e)] *)
Definition try_except {A : Type} (body : M A) (caught : exn → bool) (handler : exn → M A)
  : M A :=
  λ db,
    match body db with
    | (inl e, db') => if caught e then handler e db' else (inl e, db')
    | (inr a, db') => (inr a, db')
    end.

(** [db.query(PaymentModel).filter(PaymentModel.payment_id == payment_id).first()] *)
Definition db_query_first (payment_id : string) : M (option PaymentModel.t) :=
  λ db, (inr (db !! payment_id), db).

(** [db.commit()] after an attribute of the row loaded under [payment_id]
    was assigned: the row is written back under its primary key. *)
Definition db_commit (payment_id : string) (payment : PaymentModel.t) : M unit :=
  λ db, (inr tt, <[payment_id := payment]> db).

(** [db.add(db_payment); db.commit(); db.refresh(db_payment)]: the insert
    violates the primary key when the id is taken, and nothing is written;
    otherwise the row is stored with the column default and read back. *)
Definition db_add_commit_refresh (utcnow : datetime) (db_payment : PaymentModel.t)
  : M PaymentModel.t :=
  λ db,
    match db !! PaymentModel.payment_id db_payment with
    | Some _ => (inl (IntegrityError "duplicate key value violates unique constraint"), db)
    | None =>
        let row := PaymentModel.default_created_at utcnow db_payment in
        (inr row, <[PaymentModel.payment_id db_payment := row]> db)
    end.

(** ** main.py: the handlers *)

(** The arguments of the checkout-session request of [create_payment]. *)
Definition checkout_params (payment_id : string) (stripe_amount : Z)
    (payment_request : PaymentRequest.t) : SessionParams.t :=
  {| SessionParams.currency := lower (PaymentRequest.currency payment_request);
     SessionParams.unit_amount := stripe_amount;
     SessionParams.product_name := "Order " ++ PaymentRequest.order_id payment_request;
     SessionParams.success_url := PaymentRequest.return_url payment_request;
     SessionParams.cancel_url := PaymentRequest.cancel_url payment_request;
     SessionParams.metadata :=
       <["payment_id" := payment_id]>
         (<["order_id" := PaymentRequest.order_id payment_request]> ∅) |}.

(** [POST /api/v1/payments] *)
Definition create_payment (stripe : StripeAPI) (uuid4 : string) (utcnow : datetime)
    (payment_request : PaymentRequest.t) : M PaymentResponse.t :=
  let payment_id := uuid4 in
  stripe_amount ← call (int_of_float (PrimFloat.mul (PaymentRequest.amount payment_request) 100));
  try_except
    (checkout_session ←
       call (checkout_Session_create stripe
               (checkout_params payment_id stripe_amount payment_request));
     db_payment ←
       db_add_commit_refresh utcnow
         {| PaymentModel.payment_id := payment_id;
            PaymentModel.status := PENDING;
            PaymentModel.amount := PaymentRequest.amount payment_request;
            PaymentModel.currency := PaymentRequest.currency payment_request;
            PaymentModel.order_id := PaymentRequest.order_id payment_request;
            PaymentModel.customer_id := PaymentRequest.customer_id payment_request;
            PaymentModel.payment_method := PaymentRequest.payment_method payment_request;
            PaymentModel.created_at := None;
            PaymentModel.metadata := PaymentRequest.metadata payment_request;
            PaymentModel.stripe_payment_intent_id := None;
            PaymentModel.stripe_session_id := Some (Session.id checkout_session) |};
     created_at ←
       match PaymentModel.created_at db_payment with
       | Some d => mret (isoformat d)
       | None => raise (AttributeError "'NoneType' object has no attribute 'isoformat'")
       end;
     mret {| PaymentResponse.payment_id := PaymentModel.payment_id db_payment;
             PaymentResponse.status := PaymentModel.status db_payment;
             PaymentResponse.amount := PaymentModel.amount db_payment;
             PaymentResponse.currency := PaymentModel.currency db_payment;
             PaymentResponse.created_at := created_at;
             PaymentResponse.order_id := PaymentModel.order_id db_payment;
             PaymentResponse.checkout_url := Session.url checkout_session |})
    is_StripeError
    (λ e, raise (HTTPException 400 (str e))).

(** [GET /api/v1/payments/{payment_id}] *)
Definition get_payment (stripe : StripeAPI) (payment_id : string) : M PaymentModel.t :=
  payment ← db_query_first payment_id;
  match payment with
  | None => raise (HTTPException 404 "Payment not found")
  | Some payment =>
      if truthy (PaymentModel.stripe_session_id payment) then
        session ←
          call (checkout_Session_retrieve stripe (PaymentModel.stripe_session_id payment));
        if (Session.payment_status session =? "paid")
           && negb (bool_decide (PaymentModel.status payment = CONFIRMED)) then
          let payment := PaymentModel.set_status CONFIRMED payment in
          db_commit payment_id payment;; mret payment
        else if (Session.status session =? "expired")
                && bool_decide (PaymentModel.status payment = PENDING) then
          let payment := PaymentModel.set_status FAILED payment in
          db_commit payment_id payment;; mret payment
        else mret payment
      else mret payment
  end.

(** [POST /api/v1/payments/{payment_id}/refund] *)
Definition refund_payment (stripe : StripeAPI) (payment_id : string) : M (gmap string string) :=
  payment ← db_query_first payment_id;
  match payment with
  | None => raise (HTTPException 404 "Payment not found")
  | Some payment =>
      if negb (bool_decide (PaymentModel.status payment = CONFIRMED)) then
        raise (HTTPException 400 "Payment cannot be refunded")
      else
        try_except
          (session ←
             call (checkout_Session_retrieve stripe (PaymentModel.stripe_session_id payment));
           refund ← call (Refund_create stripe (Session.payment_intent session));
           if Refund.status refund =? "succeeded" then
             db_commit payment_id (PaymentModel.set_status REFUNDED payment);;
             mret {["message" := "Payment refunded successfully"]}
           else raise (HTTPException 400 "Refund failed"))
          is_StripeError
          (λ e, raise (HTTPException 400 (str e)))
  end.

(** [POST /api/v1/webhooks/stripe] *)
Definition stripe_webhook (stripe : StripeAPI) (WEBHOOK_SECRET : option string)
    (payload : string) (sig_header : option string) : M (gmap string string) :=
  try_except
    (event ← call (Webhook_construct_event stripe payload sig_header WEBHOOK_SECRET);
     (if Event.type event =? "checkout.session.completed" then
        let session := Event.data_object event in
        let payment_id := Session.metadata session !! "payment_id" in
        match payment_id with
        | Some pid =>
            if truthy payment_id then
              payment ← db_query_first pid;
              match payment with
              | Some payment =>
                  db_commit pid
                    (PaymentModel.set_stripe_payment_intent_id (Session.payment_intent session)
                       (PaymentModel.set_status CONFIRMED payment))
              | None => mret tt
              end
            else mret tt
        | None => mret tt
        end
      else mret tt);;
     mret {["status" := "success"]})
    is_ValueError_or_SignatureVerificationError
    (λ e, raise (HTTPException 400 (str e))).

(** ** Requests and their sequences *)

(** One request to the service, with what [uuid4()] and [utcnow()] return
    while it is handled. *)
Inductive request : Type :=
| POST_payments (uuid4 : string) (utcnow : datetime) (payment_request : PaymentRequest.t)
| GET_payment (payment_id : string)
| POST_refund (payment_id : string)
| POST_webhook (payload : string) (sig_header : option string).

Inductive response : Type :=
| Created (r : PaymentResponse.t)
| Found (payment : PaymentModel.t)
| Json (body : gmap string string).

Definition handle (WEBHOOK_SECRET : option string) (stripe : StripeAPI) (r : request)
  : M response :=
  match r with
  | POST_payments uuid4 utcnow payment_request =>
      Created <$> create_payment stripe uuid4 utcnow payment_request
  | GET_payment payment_id => Found <$> get_payment stripe payment_id
  | POST_refund payment_id => Json <$> refund_payment stripe payment_id
  | POST_webhook payload sig_header =>
      Json <$> stripe_webhook stripe WEBHOOK_SECRET payload sig_header
  end.

(** The table after a sequence of requests, each handled against the
    processor as it answers at that time. *)
Fixpoint run (WEBHOOK_SECRET : option string) (trace : list (StripeAPI * request))
    (db : Store) : Store :=
  match trace with
  | [] => db
  | (stripe, r) :: trace' => run WEBHOOK_SECRET trace' (handle WEBHOOK_SECRET stripe r db).2
  end.

(** The tables the service can be in: those a sequence of requests builds
    from the empty table. *)
Definition reachable (WEBHOOK_SECRET : option string) (db : Store) : Prop :=
  ∃ trace, db = run WEBHOOK_SECRET trace ∅.

(** The status of the row stored under an id. *)
Definition status_of (db : Store) (payment_id : string) : option PaymentStatus :=
  PaymentModel.status <$> db !! payment_id.

(** ** A concrete processor for the scenarios *)

Module Scenario.
Definition order : PaymentRequest.t :=
  {| PaymentRequest.amount := 10%float;
     PaymentRequest.currency := "usd";
     PaymentRequest.order_id := "o1";
     PaymentRequest.payment_method := "card";
     PaymentRequest.customer_id := None;
     PaymentRequest.metadata := None;
     PaymentRequest.return_url := "https://shop.example/ok";
     PaymentRequest.cancel_url := "https://shop.example/cancel" |}.

Definition pid : string := "7d9f0c1e-0000-4000-8000-000000000001".

Definition now : datetime := mk_datetime 2024 5 17 9 30 0 0.

(** The checkout session of [order] as the processor reports it. *)
Definition session (payment_status status : string) : Session.t :=
  {| Session.id := "cs_test_1";
     Session.url := Some "https://checkout.stripe.com/c/pay/cs_test_1";
     Session.payment_status := payment_status;
     Session.status := status;
     Session.payment_intent := Some "pi_1";
     Session.metadata := <["payment_id" := pid]> (<["order_id" := "o1"]> ∅) |}.

(** A processor that reports the session in the given state, answers
    refunds with the given outcome, and accepts exactly the signature
    ["good"] on webhook payloads, which it reads as the given event. *)
Definition stripe (payment_status status : string) (refund : exn + Refund.t)
    (event : Event.t) : StripeAPI :=
  {| checkout_Session_create := λ _, inr (session "unpaid" "open");
     checkout_Session_retrieve := λ _, inr (session payment_status status);
     Refund_create := λ _, refund;
     Webhook_construct_event := λ _ sig_header _,
       if bool_decide (sig_header = Some "good") then inr event
       else inl (SignatureVerificationError
                   "No signatures found matching the expected signature for payload") |}.

(** A processor whose every call fails. *)
Definition stripe_down : StripeAPI :=
  {| checkout_Session_create := λ _, inl (StripeError "Connection error");
     checkout_Session_retrieve := λ _, inl (StripeError "Connection error");
     Refund_create := λ _, inl (StripeError "Connection error");
     Webhook_construct_event := λ _ _ _, inl (ValueError "Invalid payload") |}.

Definition completed : Event.t :=
  {| Event.type := "checkout.session.completed";
     Event.data_object := session "paid" "complete" |}.

(** A completed session of another system, one without correlation
    metadata, and an event of another type. *)
Definition foreign : Event.t :=
  {| Event.type := "checkout.session.completed";
     Event.data_object :=
       {| Session.id := "cs_test_9";
          Session.url := None;
          Session.payment_status := "paid";
          Session.status := "complete";
          Session.payment_intent := Some "pi_9";
          Session.metadata := <["payment_id" := "someone-else"]> ∅ |} |}.

Definition uncorrelated : Event.t :=
  {| Event.type := "checkout.session.completed";
     Event.data_object :=
       {| Session.id := "cs_test_8";
          Session.url := None;
          Session.payment_status := "paid";
          Session.status := "complete";
          Session.payment_intent := Some "pi_8";
          Session.metadata := ∅ |} |}.

Definition charge_refunded : Event.t :=
  {| Event.type := "charge.refunded";
     Event.data_object := session "paid" "complete" |}.

Definition refunded : exn + Refund.t := inr {| Refund.status := "succeeded" |}.
Definition declined : exn + Refund.t := inr {| Refund.status := "failed" |}.

Definition open_ : StripeAPI := stripe "unpaid" "open" refunded completed.
Definition paid : StripeAPI := stripe "paid" "complete" refunded completed.
Definition expired : StripeAPI := stripe "unpaid" "expired" refunded completed.

Definition secret : option string := Some "whsec_test".

(** The row of [order] with a given status and payment intent. *)
Definition row (status : PaymentStatus) (payment_intent : option string) : PaymentModel.t :=
  {| PaymentModel.payment_id := pid;
     PaymentModel.status := status;
     PaymentModel.amount := 10%float;
     PaymentModel.currency := "usd";
     PaymentModel.order_id := "o1";
     PaymentModel.customer_id := None;
     PaymentModel.payment_method := "card";
     PaymentModel.created_at := Some now;
     PaymentModel.metadata := None;
     PaymentModel.stripe_payment_intent_id := payment_intent;
     PaymentModel.stripe_session_id := Some "cs_test_1" |}.

(** The tables of the scenarios, built by the handlers themselves. *)
Definition webhook : request := POST_webhook "{}" (Some "good").

Definition db_pending : Store :=
  run secret [(open_, POST_payments pid now order)] ∅.
Definition db_confirmed : Store :=
  run secret [(paid, webhook)] db_pending.
Definition db_refunded : Store :=
  run secret [(paid, POST_refund pid)] db_confirmed.
Definition db_failed : Store :=
  run secret [(expired, GET_payment pid)] db_pending.
End Scenario.

(** ** Reports of a paid session *)

(** A request that brings the processor's report "session paid" for the row
    [payment] stored under [payment_id]: a signed
    [checkout.session.completed] webhook whose metadata names the id, or a
    [GET] of the id while the processor reports the row's session paid. *)
Definition reports_paid (WEBHOOK_SECRET : option string) (stripe : StripeAPI)
    (payment_id : string) (payment : PaymentModel.t) (r : request) : Prop :=
  match r with
  | POST_webhook payload sig_header =>
      ∃ event,
        Webhook_construct_event stripe payload sig_header WEBHOOK_SECRET = inr event
        ∧ Event.type event = "checkout.session.completed"
        ∧ Session.metadata (Event.data_object event) !! "payment_id" = Some payment_id
        ∧ payment_id ≠ ""
  | GET_payment payment_id' =>
      payment_id' = payment_id
      ∧ truthy (PaymentModel.stripe_session_id payment) = true
      ∧ ∃ session,
          checkout_Session_retrieve stripe (PaymentModel.stripe_session_id payment) = inr session
          ∧ Session.payment_status session = "paid"
  | _ => False
  end.

(** ** The status moves the handlers make *)

(** [moves st st'] holds when some handler can take a stored row from status
    [st] to status [st'] (or leave it at [st]). *)
Definition moves (st st' : PaymentStatus) : bool :=
  match st, st' with
  | PENDING, (PENDING | CONFIRMED | FAILED) => true
  | CONFIRMED, (CONFIRMED | REFUNDED) => true
  | FAILED, (FAILED | CONFIRMED) => true
  | REFUNDED, (REFUNDED | CONFIRMED) => true
  | _, _ => false
  end.

(** What one request may do to the row under key [k]: insert it as a fresh
    [PENDING] row without payment intent, or rewrite its status along
    [moves], touching the payment intent only when the new status is
    [CONFIRMED]. *)
Definition row_step (k : string) (old : option PaymentModel.t) (new : PaymentModel.t) : Prop :=
  PaymentModel.payment_id new = k
  ∧ match old with
    | None =>
        PaymentModel.status new = PENDING
        ∧ PaymentModel.stripe_payment_intent_id new = None
    | Some p =>
        PaymentModel.payment_id p = k
        ∧ moves (PaymentModel.status p) (PaymentModel.status new) = true
        ∧ (PaymentModel.stripe_payment_intent_id new = PaymentModel.stripe_payment_intent_id p
           ∨ PaymentModel.status new = CONFIRMED)
        ∧ PaymentModel.stripe_session_id new = PaymentModel.stripe_session_id p
    end.

(** The outcomes a handler has on the table [db]: nothing, or one row
    written along [row_step]. *)
Definition writes_one_row (db db' : Store) : Prop :=
  db' = db ∨ ∃ k new, db' = <[k := new]> db ∧ row_step k (db !! k) new.

(** Every row is stored under its own [payment_id], and a row that carries
    a payment intent is [CONFIRMED] or [REFUNDED]. *)
Definition store_inv (db : Store) : Prop :=
  ∀ k p, db !! k = Some p →
    PaymentModel.payment_id p = k
    ∧ (PaymentModel.stripe_payment_intent_id p ≠ None →
       PaymentModel.status p = CONFIRMED ∨ PaymentModel.status p = REFUNDED).

(** ** main.py: the API key dependency and the routes *)



(** ** The columns no handler assigns *)

(** The columns of a row other than [status] and
    [stripe_payment_intent_id]. *)
Definition business_fields (p : PaymentModel.t)
  : string * float * string * string * option string * string
    * option datetime * option (gmap string string) * option string :=
  (PaymentModel.payment_id p, PaymentModel.amount p, PaymentModel.currency p,
   PaymentModel.order_id p, PaymentModel.customer_id p, PaymentModel.payment_method p,
   PaymentModel.created_at p, PaymentModel.metadata p, PaymentModel.stripe_session_id p).

(** The id a request may add to the table. *)
Definition new_ids (r : request) : gset string :=
  match r with
  | POST_payments uuid4 _ _ => {[uuid4]}
  | _ => ∅
  end.

(** ** The effect of one request on the table *)

(** The row [create_payment] hands to [db.add], for the checkout session the
    processor returned. *)
Definition db_payment_of (uuid4 : string) (payment_request : PaymentRequest.t)
    (checkout_session : Session.t) : PaymentModel.t :=
  {| PaymentModel.payment_id := uuid4;
     PaymentModel.status := PENDING;
     PaymentModel.amount := PaymentRequest.amount payment_request;
     PaymentModel.currency := PaymentRequest.currency payment_request;
     PaymentModel.order_id := PaymentRequest.order_id payment_request;
     PaymentModel.customer_id := PaymentRequest.customer_id payment_request;
     PaymentModel.payment_method := PaymentRequest.payment_method payment_request;
     PaymentModel.created_at := None;
     PaymentModel.metadata := PaymentRequest.metadata payment_request;
     PaymentModel.stripe_payment_intent_id := None;
     PaymentModel.stripe_session_id := Some (Session.id checkout_session) |}.

(** One stored row is rewritten and keeps its business columns. *)
Definition rewrites_a_row (db db' : Store) : Prop :=
  ∃ k old new, db !! k = Some old ∧ db' = <[k := new]> db
               ∧ business_fields new = business_fields old.

(** [create_payment] inserts its row under a key that was free. *)
Definition inserts_a_row (stripe : StripeAPI) (r : request) (db db' : Store) : Prop :=
  ∃ uuid4 utcnow payment_request stripe_amount checkout_session,
    r = POST_payments uuid4 utcnow payment_request
    ∧ int_of_float (PrimFloat.mul (PaymentRequest.amount payment_request) 100)
      = inr stripe_amount
    ∧ checkout_Session_create stripe (checkout_params uuid4 stripe_amount payment_request)
      = inr checkout_session
    ∧ db !! uuid4 = None
    ∧ db' = <[uuid4 :=
               PaymentModel.default_created_at utcnow
                 (db_payment_of uuid4 payment_request checkout_session)]> db.

(** Every row has a creation time and a session id. *)
Definition rows_complete (db : Store) : Prop :=
  ∀ k p, db !! k = Some p →
    is_Some (PaymentModel.created_at p) ∧ is_Some (PaymentModel.stripe_session_id p).

(** ** Further scenarios *)

Module Fixtures.
(** A completed event whose correlation id is the empty string, and a
    table whose only row is stored under the empty string. *)
Definition blank_id : Event.t :=
  {| Event.type := "checkout.session.completed";
     Event.data_object :=
       {| Session.id := "cs_test_7";
          Session.url := None;
          Session.payment_status := "paid";
          Session.status := "complete";
          Session.payment_intent := Some "pi_7";
          Session.metadata := <["payment_id" := ""]> ∅ |} |}.

Definition db_blank : Store :=
  run Scenario.secret [(Scenario.open_, POST_payments "" Scenario.now Scenario.order)] ∅.

(** The table after create and a poll that found the session paid: the row
    is confirmed without payment intent. *)
Definition db_polled : Store :=
  run Scenario.secret [(Scenario.paid, GET_payment Scenario.pid)] Scenario.db_pending.


(** A processor that answers the request of a payment with a session
    carrying the correlation metadata it was sent. *)
Definition echo (payment_status status : string) : StripeAPI :=
  {| checkout_Session_create := λ params,
       inr {| Session.id := "cs_test_2";
              Session.url := Some "https://checkout.stripe.com/c/pay/cs_test_2";
              Session.payment_status := "unpaid";
              Session.status := "open";
              Session.payment_intent := None;
              Session.metadata := SessionParams.metadata params |};
     checkout_Session_retrieve := λ _,
       inr {| Session.id := "cs_test_2";
              Session.url := Some "https://checkout.stripe.com/c/pay/cs_test_2";
              Session.payment_status := payment_status;
              Session.status := status;
              Session.payment_intent := Some "pi_2";
              Session.metadata := ∅ |};
     Refund_create := λ _, Scenario.refunded;
     Webhook_construct_event := λ _ _ _,
       inr {| Event.type := "checkout.session.completed";
              Event.data_object :=
                {| Session.id := "cs_test_2";
                   Session.url := None;
                   Session.payment_status := "paid";
                   Session.status := "complete";
                   Session.payment_intent := Some "pi_2";
                   Session.metadata :=
                     SessionParams.metadata
                       (checkout_params Scenario.pid 1000 Scenario.order) |} |} |}.
End Fixtures.

(** ** Proof support *)

(** Unfolds the monad so that a handler applied to a table reduces to the
    case analysis written in its body. *)
Ltac unfold_M :=
  unfold try_except, raise, call, db_query_first, db_commit, db_add_commit_refresh,
    mbind, mret, fmap, M_bind, M_ret, M_fmap in *.

Lemma eqb_string_false (a b : string) : a ≠ b → (a =? b) = false.
Proof. intros Hne. by apply String.eqb_neq. Qed.

Lemma truthy_Some (s : string) : s ≠ "" → truthy (Some s) = true.
Proof. intros Hne. unfold truthy. by rewrite eqb_string_false. Qed.

(** ** Webhook ingestion *)

(** C7. When the processor's signature check raises
    [SignatureVerificationError] for the payload and signature header under
    the shared secret, [stripe_webhook] raises [HTTPException(400)] carrying
    the check's message, and the table is exactly as before: no row is
    read-modified or written. *)
Theorem stripe_webhook_invalid_signature
    (stripe : StripeAPI) (WEBHOOK_SECRET : option string)
    (payload : string) (sig_header : option string) (msg : string) (db : Store) :
  Webhook_construct_event stripe payload sig_header WEBHOOK_SECRET
    = inl (SignatureVerificationError msg) →
  stripe_webhook stripe WEBHOOK_SECRET payload sig_header db
    = (inl (HTTPException 400 msg), db).
Proof.
  intros Hsig. unfold stripe_webhook. unfold_M. by rewrite Hsig.
Qed.

(** C8. A correctly signed [checkout.session.completed] event whose
    metadata has no [payment_id], or whose [payment_id] is the key of no
    stored row, is acknowledged with the success body and the table is left
    exactly as it was. *)
Theorem stripe_webhook_unmatched_ignored
    (stripe : StripeAPI) (WEBHOOK_SECRET : option string)
    (payload : string) (sig_header : option string) (event : Event.t) (db : Store) :
  Webhook_construct_event stripe payload sig_header WEBHOOK_SECRET = inr event →
  Event.type event = "checkout.session.completed" →
  (Session.metadata (Event.data_object event) !! "payment_id" = None
   ∨ ∃ pid, Session.metadata (Event.data_object event) !! "payment_id" = Some pid
            ∧ db !! pid = None) →
  stripe_webhook stripe WEBHOOK_SECRET payload sig_header db
    = (inr ({["status" := "success"]} : gmap string string), db).
Proof.
  intros Hev Hty Hmiss. unfold stripe_webhook. unfold_M.
  rewrite Hev, Hty. simpl.
  destruct Hmiss as [Hnone | (pid & Hpid & Hrow)].
  - by rewrite Hnone.
  - rewrite Hpid. destruct (truthy (Some pid)); [| done]. by rewrite Hrow.
Qed.

(** C10. A correctly signed event of any type other than
    [checkout.session.completed] is acknowledged with the success body and
    the table, hence every field of every row, is unchanged. *)
Theorem stripe_webhook_other_event_frame
    (stripe : StripeAPI) (WEBHOOK_SECRET : option string)
    (payload : string) (sig_header : option string) (event : Event.t) (db : Store) :
  Webhook_construct_event stripe payload sig_header WEBHOOK_SECRET = inr event →
  Event.type event ≠ "checkout.session.completed" →
  stripe_webhook stripe WEBHOOK_SECRET payload sig_header db
    = (inr ({["status" := "success"]} : gmap string string), db).
Proof.
  intros Hev Hty. unfold stripe_webhook. unfold_M.
  rewrite Hev. by rewrite (eqb_string_false _ _ Hty).
Qed.

(** ** Refund *)

(** C4. For a stored row whose status is not [CONFIRMED], [refund_payment]
    raises [HTTPException(400, "Payment cannot be refunded")] and the table
    is exactly as before. For a [CONFIRMED] row, a refund that comes back
    with a status other than ["succeeded"] raises
    [HTTPException(400, "Refund failed")], a session lookup or refund call
    that raises is rejected with the processor's message
    ([HTTPException(400)] for a [StripeError]), and in each case the table is
    exactly as before, so the row is still [CONFIRMED]. *)
Theorem refund_payment_rejected
    (stripe : StripeAPI) (payment_id : string) (payment : PaymentModel.t) (db : Store) :
  db !! payment_id = Some payment →
  (PaymentModel.status payment ≠ CONFIRMED →
     refund_payment stripe payment_id db
       = (inl (HTTPException 400 "Payment cannot be refunded"), db))
  ∧ (PaymentModel.status payment = CONFIRMED →
     match checkout_Session_retrieve stripe (PaymentModel.stripe_session_id payment) with
     | inr session =>
         match Refund_create stripe (Session.payment_intent session) with
         | inr refund =>
             Refund.status refund ≠ "succeeded" →
             refund_payment stripe payment_id db = (inl (HTTPException 400 "Refund failed"), db)
         | inl e =>
             refund_payment stripe payment_id db
               = (inl (if is_StripeError e then HTTPException 400 (str e) else e), db)
         end
     | inl e =>
         refund_payment stripe payment_id db
           = (inl (if is_StripeError e then HTTPException 400 (str e) else e), db)
     end).
Proof.
  intros Hrow. split.
  - intros Hst. unfold refund_payment. unfold_M. rewrite Hrow.
    by rewrite bool_decide_eq_false_2.
  - intros Hst. unfold refund_payment. unfold_M. rewrite Hrow.
    rewrite bool_decide_eq_true_2 by done. simpl.
    destruct (checkout_Session_retrieve stripe _) as [e | session].
    { by destruct (is_StripeError e). }
    destruct (Refund_create stripe (Session.payment_intent session)) as [e | refund].
    + by destruct (is_StripeError e).
    + intros Hfail. by rewrite (eqb_string_false _ _ Hfail).
Qed.

(** ** Initiate payment *)

(** C3. Let the amount have a number of cents ([int(amount * 100)]
    returns), so that the checkout-session request is made. If the processor
    returns a checkout session and the generated id is not yet a key of the
    table, [create_payment] returns a response and the table is the old one
    plus exactly one row, stored under the generated id, with status
    [PENDING] and the returned session id. If the processor call raises,
    [create_payment] raises ([HTTPException(400)] for a [StripeError]) and the
    table is exactly as before. The request body is not inspected further, so
    this holds for every body, valid or not. *)
Theorem create_payment_pending_or_nothing
    (stripe : StripeAPI) (uuid4 : string) (utcnow : datetime)
    (payment_request : PaymentRequest.t) (stripe_amount : Z) (db : Store) :
  int_of_float (PrimFloat.mul (PaymentRequest.amount payment_request) 100) = inr stripe_amount →
  match checkout_Session_create stripe (checkout_params uuid4 stripe_amount payment_request) with
  | inr checkout_session =>
      db !! uuid4 = None →
      ∃ row resp,
        create_payment stripe uuid4 utcnow payment_request db = (inr resp, <[uuid4 := row]> db)
        ∧ PaymentModel.payment_id row = uuid4
        ∧ PaymentModel.status row = PENDING
        ∧ PaymentModel.stripe_session_id row = Some (Session.id checkout_session)
        ∧ PaymentModel.stripe_payment_intent_id row = None
        ∧ size (<[uuid4 := row]> db) = S (size db)
        ∧ PaymentResponse.payment_id resp = uuid4
        ∧ PaymentResponse.status resp = PENDING
        ∧ PaymentResponse.checkout_url resp = Session.url checkout_session
  | inl e =>
      create_payment stripe uuid4 utcnow payment_request db
        = (inl (if is_StripeError e then HTTPException 400 (str e) else e), db)
  end.
Proof.
  intros Hcents. unfold create_payment. unfold_M. rewrite Hcents.
  destruct (checkout_Session_create stripe _) as [e | checkout_session].
  - by destruct (is_StripeError e).
  - intros Hfresh. simpl. rewrite Hfresh. simpl. eexists _, _. split; [reflexivity |].
    repeat split. by apply map_size_insert_None.
Qed.

(** X15. When [int(amount * 100)] raises (a NaN or an infinite amount), the
    exception passes through, no request is made to the processor and
    nothing is written. *)
Lemma create_payment_no_cents
    (stripe : StripeAPI) (uuid4 : string) (utcnow : datetime)
    (payment_request : PaymentRequest.t) (e : exn) (db : Store) :
  int_of_float (PrimFloat.mul (PaymentRequest.amount payment_request) 100) = inl e →
  create_payment stripe uuid4 utcnow payment_request db = (inl e, db).
Proof. intros Hcents. unfold create_payment. unfold_M. by rewrite Hcents. Qed.

(** X21. When [uuid4()] returns an id that is already a key, the insert
    fails with the database's integrity error, which is not caught, and
    nothing is written, although the processor has created the session. *)
Lemma create_payment_id_taken
    (stripe : StripeAPI) (uuid4 : string) (utcnow : datetime)
    (payment_request : PaymentRequest.t) (stripe_amount : Z)
    (checkout_session : Session.t) (db : Store) :
  is_Some (db !! uuid4) →
  int_of_float (PrimFloat.mul (PaymentRequest.amount payment_request) 100) = inr stripe_amount →
  checkout_Session_create stripe (checkout_params uuid4 stripe_amount payment_request)
    = inr checkout_session →
  create_payment stripe uuid4 utcnow payment_request db
    = (inl (IntegrityError "duplicate key value violates unique constraint"), db).
Proof.
  intros [taken Htaken] Hcents Hcreate. unfold create_payment. unfold_M.
  rewrite Hcents, Hcreate. simpl. by rewrite Htaken.
Qed.

(** ** Query and sync *)

Section get_payment_cases.
Variables (stripe : StripeAPI) (payment_id : string) (payment : PaymentModel.t) (db : Store).
Hypothesis Hrow : db !! payment_id = Some payment.

Lemma get_payment_no_session :
  truthy (PaymentModel.stripe_session_id payment) = false →
  get_payment stripe payment_id db = (inr payment, db).
Proof using Hrow.
  intros Hno. unfold get_payment. unfold_M. by rewrite Hrow, Hno.
Qed.

Lemma get_payment_poll_raises (e : exn) :
  truthy (PaymentModel.stripe_session_id payment) = true →
  checkout_Session_retrieve stripe (PaymentModel.stripe_session_id payment) = inl e →
  get_payment stripe payment_id db = (inl e, db).
Proof using Hrow.
  intros Hyes Hpoll. unfold get_payment. unfold_M. by rewrite Hrow, Hyes, Hpoll.
Qed.

Section polled.
Variable session : Session.t.
Hypothesis Hyes : truthy (PaymentModel.stripe_session_id payment) = true.
Hypothesis Hpoll :
  checkout_Session_retrieve stripe (PaymentModel.stripe_session_id payment) = inr session.

Lemma get_payment_paid :
  Session.payment_status session = "paid" →
  PaymentModel.status payment ≠ CONFIRMED →
  get_payment stripe payment_id db
    = (inr (PaymentModel.set_status CONFIRMED payment),
       <[payment_id := PaymentModel.set_status CONFIRMED payment]> db).
Proof using Hrow Hyes Hpoll.
  intros Hpaid Hst. unfold get_payment. unfold_M.
  rewrite Hrow, Hyes, Hpoll, Hpaid. simpl.
  by rewrite bool_decide_eq_false_2.
Qed.

Lemma get_payment_confirmed :
  PaymentModel.status payment = CONFIRMED →
  get_payment stripe payment_id db = (inr payment, db).
Proof using Hrow Hyes Hpoll.
  intros Hst. unfold get_payment. unfold_M.
  rewrite Hrow, Hyes, Hpoll, Hst. simpl.
  by rewrite !andb_false_r.
Qed.

Lemma get_payment_expired :
  Session.payment_status session ≠ "paid" →
  Session.status session = "expired" →
  PaymentModel.status payment = PENDING →
  get_payment stripe payment_id db
    = (inr (PaymentModel.set_status FAILED payment),
       <[payment_id := PaymentModel.set_status FAILED payment]> db).
Proof using Hrow Hyes Hpoll.
  intros Hunpaid Hexp Hst. unfold get_payment. unfold_M.
  rewrite Hrow, Hyes, Hpoll, Hexp, Hst.
  by rewrite (eqb_string_false _ _ Hunpaid).
Qed.

Lemma get_payment_unchanged :
  Session.payment_status session ≠ "paid" →
  Session.status session ≠ "expired" ∨ PaymentModel.status payment ≠ PENDING →
  get_payment stripe payment_id db = (inr payment, db).
Proof using Hrow Hyes Hpoll.
  intros Hunpaid Hstay. unfold get_payment. unfold_M.
  rewrite Hrow, Hyes, Hpoll, (eqb_string_false _ _ Hunpaid). simpl.
  destruct Hstay as [Hopen | Hst].
  - by rewrite (eqb_string_false _ _ Hopen).
  - rewrite (bool_decide_eq_false_2 _ Hst). by rewrite andb_false_r.
Qed.
End polled.
End get_payment_cases.

Lemma get_payment_missing (stripe : StripeAPI) (payment_id : string) (db : Store) :
  db !! payment_id = None →
  get_payment stripe payment_id db = (inl (HTTPException 404 "Payment not found"), db).
Proof. intros Hrow. unfold get_payment. unfold_M. by rewrite Hrow. Qed.

(** C5, as amended. [get_payment] raises [HTTPException(404)] when no row is
    stored under the id. A row without a (non-empty) session id is returned
    as it is, whatever the processor would answer. A row with a session id is
    polled whatever its status, and a poll that raises makes the request
    raise with the table unchanged. After a poll that returns: a [PENDING]
    row becomes [CONFIRMED] on a paid report, else [FAILED] on an expired
    report, else stays as it is; a [CONFIRMED] row is returned unchanged; a
    [FAILED] or [REFUNDED] row whose session is not reported paid is returned
    unchanged. *)
Theorem get_payment_sync (stripe : StripeAPI) (payment_id : string) (db : Store) :
  match db !! payment_id with
  | None =>
      get_payment stripe payment_id db = (inl (HTTPException 404 "Payment not found"), db)
  | Some payment =>
      if truthy (PaymentModel.stripe_session_id payment) then
        match checkout_Session_retrieve stripe (PaymentModel.stripe_session_id payment) with
        | inl e => get_payment stripe payment_id db = (inl e, db)
        | inr session =>
            match PaymentModel.status payment with
            | PENDING =>
                if Session.payment_status session =? "paid" then
                  get_payment stripe payment_id db
                    = (inr (PaymentModel.set_status CONFIRMED payment),
                       <[payment_id := PaymentModel.set_status CONFIRMED payment]> db)
                else if Session.status session =? "expired" then
                  get_payment stripe payment_id db
                    = (inr (PaymentModel.set_status FAILED payment),
                       <[payment_id := PaymentModel.set_status FAILED payment]> db)
                else get_payment stripe payment_id db = (inr payment, db)
            | CONFIRMED => get_payment stripe payment_id db = (inr payment, db)
            | FAILED | REFUNDED =>
                Session.payment_status session ≠ "paid" →
                get_payment stripe payment_id db = (inr payment, db)
            end
        end
      else ∀ stripe', get_payment stripe' payment_id db = (inr payment, db)
  end.
Proof.
  destruct (db !! payment_id) as [payment |] eqn:Hrow; [| by apply get_payment_missing].
  destruct (truthy _) eqn:Hyes; [| intros stripe'; by apply get_payment_no_session].
  destruct (checkout_Session_retrieve stripe _) as [e | session] eqn:Hpoll;
    [by eapply get_payment_poll_raises |].
  destruct (PaymentModel.status payment) eqn:Hst.
  - destruct (String.eqb_spec (Session.payment_status session) "paid") as [Hpaid | Hunpaid].
    { eapply get_payment_paid; eauto. by rewrite Hst. }
    destruct (String.eqb_spec (Session.status session) "expired") as [Hexp | Hopen].
    { eapply get_payment_expired; eauto. }
    eapply get_payment_unchanged; eauto.
  - eapply get_payment_confirmed; eauto.
  - intros Hunpaid. eapply get_payment_unchanged; eauto. right. by rewrite Hst.
  - intros Hunpaid. eapply get_payment_unchanged; eauto. right. by rewrite Hst.
Qed.

(** ** Confirmation and its repetition *)

(** A signed [checkout.session.completed] event naming a stored row writes
    [CONFIRMED] and the event's payment intent into that row. *)
Lemma stripe_webhook_confirms
    (stripe : StripeAPI) (WEBHOOK_SECRET : option string)
    (payload : string) (sig_header : option string) (event : Event.t)
    (payment_id : string) (payment : PaymentModel.t) (db : Store) :
  Webhook_construct_event stripe payload sig_header WEBHOOK_SECRET = inr event →
  Event.type event = "checkout.session.completed" →
  Session.metadata (Event.data_object event) !! "payment_id" = Some payment_id →
  payment_id ≠ "" →
  db !! payment_id = Some payment →
  stripe_webhook stripe WEBHOOK_SECRET payload sig_header db
    = (inr ({["status" := "success"]} : gmap string string),
       <[payment_id :=
           PaymentModel.set_stripe_payment_intent_id
             (Session.payment_intent (Event.data_object event))
             (PaymentModel.set_status CONFIRMED payment)]> db).
Proof.
  intros Hev Hty Hpid Hne Hrow. unfold stripe_webhook. unfold_M.
  rewrite Hev, Hty. simpl. rewrite Hpid, (truthy_Some _ Hne). by rewrite Hrow.
Qed.

Lemma handle_GET_payment (WEBHOOK_SECRET : option string) (stripe : StripeAPI)
    (payment_id : string) (db : Store) (res : exn + PaymentModel.t) (db' : Store) :
  get_payment stripe payment_id db = (res, db') →
  handle WEBHOOK_SECRET stripe (GET_payment payment_id) db
    = (match res with inl e => inl e | inr payment => inr (Found payment) end, db').
Proof. intros Hget. simpl. unfold fmap, M_fmap. rewrite Hget. by destruct res. Qed.

Lemma handle_POST_webhook (WEBHOOK_SECRET : option string) (stripe : StripeAPI)
    (payload : string) (sig_header : option string) (db : Store)
    (res : exn + gmap string string) (db' : Store) :
  stripe_webhook stripe WEBHOOK_SECRET payload sig_header db = (res, db') →
  handle WEBHOOK_SECRET stripe (POST_webhook payload sig_header) db
    = (match res with inl e => inl e | inr body => inr (Json body) end, db').
Proof. intros Hhook. simpl. unfold fmap, M_fmap. rewrite Hhook. by destruct res. Qed.

(** Whether a report changes the row depends on the row's session id only. *)
Lemma reports_paid_same_session (WEBHOOK_SECRET : option string) (stripe : StripeAPI)
    (payment_id : string) (payment payment' : PaymentModel.t) (r : request) :
  PaymentModel.stripe_session_id payment' = PaymentModel.stripe_session_id payment →
  reports_paid WEBHOOK_SECRET stripe payment_id payment r →
  reports_paid WEBHOOK_SECRET stripe payment_id payment' r.
Proof. intros Hsame. destruct r; simpl; try done. by rewrite Hsame. Qed.

(** One report of a paid session: the request succeeds, only the row of the
    id is rewritten, and that row is [CONFIRMED] afterwards. A [GET] of an
    already confirmed row writes the row back as it was; a webhook writes
    [CONFIRMED] and the payment intent of its event. *)
Lemma reports_paid_once (WEBHOOK_SECRET : option string) (stripe : StripeAPI)
    (payment_id : string) (payment : PaymentModel.t) (r : request) (db : Store) :
  db !! payment_id = Some payment →
  reports_paid WEBHOOK_SECRET stripe payment_id payment r →
  ∃ a payment',
    handle WEBHOOK_SECRET stripe r db = (inr a, <[payment_id := payment']> db)
    ∧ PaymentModel.status payment' = CONFIRMED
    ∧ PaymentModel.stripe_session_id payment' = PaymentModel.stripe_session_id payment
    ∧ (r = GET_payment payment_id → PaymentModel.status payment = CONFIRMED →
       payment' = payment)
    ∧ (∀ payload sig_header event,
         r = POST_webhook payload sig_header →
         Webhook_construct_event stripe payload sig_header WEBHOOK_SECRET = inr event →
         payment' = PaymentModel.set_stripe_payment_intent_id
                      (Session.payment_intent (Event.data_object event))
                      (PaymentModel.set_status CONFIRMED payment)).
Proof.
  intros Hrow Hpaid. destruct r as [| payment_id' | |payload sig_header]; simpl in Hpaid; try done.
  - destruct Hpaid as (-> & Hyes & session & Hpoll & Hst).
    destruct (decide (PaymentModel.status payment = CONFIRMED)) as [Hconf | Hconf].
    + exists (Found payment), payment. rewrite (insert_id db payment_id payment Hrow).
      split; [| done].
      by rewrite (handle_GET_payment _ _ _ _ _ _
                    (get_payment_confirmed _ _ _ _ Hrow _ Hyes Hpoll Hconf)).
    + exists (Found (PaymentModel.set_status CONFIRMED payment)),
             (PaymentModel.set_status CONFIRMED payment).
      split; [| done].
      by rewrite (handle_GET_payment _ _ _ _ _ _
                    (get_payment_paid _ _ _ _ Hrow _ Hyes Hpoll Hst Hconf)).
  - destruct Hpaid as (event & Hev & Hty & Hpid & Hne).
    eexists (Json _), _. split.
    { by rewrite (handle_POST_webhook _ _ _ _ _ _ _
                    (stripe_webhook_confirms _ _ _ _ _ _ _ _ Hev Hty Hpid Hne Hrow)). }
    repeat split; [done |].
    intros payload' sig_header' event' [= <- <-] Hev'. congruence.
Qed.

(** C2. Let two requests each bring the report "session paid" for the row
    stored under an id (each a signed [checkout.session.completed] webhook
    naming the id, or a [GET] of the id while the processor reports the
    session paid). Handled one after the other, both succeed; the row is
    [CONFIRMED] after the first and still [CONFIRMED] after the second; no
    row is added or removed; and when the second request is the first one
    again, or is a [GET], it leaves the whole table exactly as the first
    left it. *)
Theorem paid_report_idempotent (WEBHOOK_SECRET : option string) (stripe : StripeAPI)
    (payment_id : string) (payment : PaymentModel.t) (r1 r2 : request) (db : Store) :
  db !! payment_id = Some payment →
  reports_paid WEBHOOK_SECRET stripe payment_id payment r1 →
  reports_paid WEBHOOK_SECRET stripe payment_id payment r2 →
  ∃ a1 db1 a2 db2,
    handle WEBHOOK_SECRET stripe r1 db = (inr a1, db1)
    ∧ handle WEBHOOK_SECRET stripe r2 db1 = (inr a2, db2)
    ∧ status_of db1 payment_id = Some CONFIRMED
    ∧ status_of db2 payment_id = Some CONFIRMED
    ∧ dom db1 = dom db
    ∧ dom db2 = dom db
    ∧ (r2 = r1 ∨ r2 = GET_payment payment_id → db2 = db1).
Proof.
  intros Hrow Hpaid1 Hpaid2.
  destruct (reports_paid_once _ _ _ _ _ _ Hrow Hpaid1)
    as (a1 & payment1 & Hrun1 & Hst1 & Hsess1 & _ & Hhook1).
  assert (Hrow1 : <[payment_id := payment1]> db !! payment_id = Some payment1)
    by apply lookup_insert_eq.
  destruct (reports_paid_once _ _ _ _ _ _ Hrow1
              (reports_paid_same_session _ _ _ _ _ _ Hsess1 Hpaid2))
    as (a2 & payment2 & Hrun2 & Hst2 & _ & Hget2 & Hhook2).
  exists a1, (<[payment_id := payment1]> db), a2,
    (<[payment_id := payment2]> (<[payment_id := payment1]> db)).
  split; [done |]. split; [done |].
  unfold status_of. rewrite !lookup_insert_eq. simpl. rewrite Hst1, Hst2.
  split; [done |]. split; [done |].
  assert (Hdom : dom (<[payment_id := payment1]> db) = dom db)
    by (apply dom_insert_lookup_L; by rewrite Hrow).
  split; [done |]. split.
  { rewrite insert_insert_eq. apply dom_insert_lookup_L. by rewrite Hrow. }
  intros Hsame.
  assert (Heq : payment2 = payment1).
  { destruct Hsame as [-> | ->]; [| by apply Hget2].
    destruct r1 as [| payment_id' | | payload sig_header]; simpl in Hpaid1; try done.
    - destruct Hpaid1 as (-> & _). by apply Hget2.
    - destruct Hpaid1 as (event & Hev & _).
      rewrite (Hhook2 _ _ _ eq_refl Hev), (Hhook1 _ _ _ eq_refl Hev). done. }
  rewrite Heq. by rewrite insert_insert_eq.
Qed.

(** ** What a request can do to the table *)

Section writes.
Variables (stripe : StripeAPI) (db : Store).
Hypothesis Hinv : store_inv db.

Lemma create_payment_writes (uuid4 : string) (utcnow : datetime)
    (payment_request : PaymentRequest.t) :
  writes_one_row db (create_payment stripe uuid4 utcnow payment_request db).2.
Proof using Type.
  unfold create_payment. unfold_M.
  destruct (int_of_float _) as [e | stripe_amount]; [by left |].
  destruct (checkout_Session_create stripe _) as [e | checkout_session].
  { left. by destruct (is_StripeError e). }
  simpl. destruct (db !! uuid4) eqn:Hrow; simpl; [by left |].
  right. eexists _, _. split; [reflexivity |]. by rewrite Hrow.
Qed.

Lemma get_payment_writes (payment_id : string) :
  writes_one_row db (get_payment stripe payment_id db).2.
Proof using Hinv.
  destruct (db !! payment_id) as [payment |] eqn:Hrow;
    [| left; by rewrite get_payment_missing].
  destruct (Hinv _ _ Hrow) as [Hkey _].
  destruct (truthy (PaymentModel.stripe_session_id payment)) eqn:Hyes;
    [| left; by rewrite (get_payment_no_session _ _ _ _ Hrow Hyes)].
  destruct (checkout_Session_retrieve stripe (PaymentModel.stripe_session_id payment))
    as [e | session] eqn:Hpoll;
    [left; by rewrite (get_payment_poll_raises _ _ _ _ Hrow _ Hyes Hpoll) |].
  destruct (String.eqb_spec (Session.payment_status session) "paid") as [Hpaid | Hunpaid].
  - destruct (decide (PaymentModel.status payment = CONFIRMED)) as [Hconf | Hconf].
    + left. by rewrite (get_payment_confirmed _ _ _ _ Hrow _ Hyes Hpoll Hconf).
    + right. rewrite (get_payment_paid _ _ _ _ Hrow _ Hyes Hpoll Hpaid Hconf).
      eexists _, _. split; [reflexivity |]. rewrite Hrow.
      unfold row_step. simpl. repeat split; auto.
      by destruct (PaymentModel.status payment).
  - destruct (String.eqb_spec (Session.status session) "expired") as [Hexp | Hopen];
      [| left; rewrite (get_payment_unchanged _ _ _ _ Hrow _ Hyes Hpoll Hunpaid); auto].
    destruct (decide (PaymentModel.status payment = PENDING)) as [Hst | Hst];
      [| left; rewrite (get_payment_unchanged _ _ _ _ Hrow _ Hyes Hpoll Hunpaid); auto].
    right. rewrite (get_payment_expired _ _ _ _ Hrow _ Hyes Hpoll Hunpaid Hexp Hst).
    eexists _, _. split; [reflexivity |]. rewrite Hrow.
    unfold row_step. simpl. rewrite Hst. repeat split; auto.
Qed.

Lemma refund_payment_writes (payment_id : string) :
  writes_one_row db (refund_payment stripe payment_id db).2.
Proof using Hinv.
  unfold refund_payment. unfold_M.
  destruct (db !! payment_id) as [payment |] eqn:Hrow; [| by left].
  destruct (Hinv _ _ Hrow) as [Hkey _].
  destruct (decide (PaymentModel.status payment = CONFIRMED)) as [Hconf | Hconf].
  2: { left. by rewrite bool_decide_eq_false_2. }
  rewrite bool_decide_eq_true_2 by done. simpl.
  destruct (checkout_Session_retrieve stripe _) as [e | session].
  { left. by destruct (is_StripeError e). }
  destruct (Refund_create stripe _) as [e | refund].
  { left. by destruct (is_StripeError e). }
  destruct (Refund.status refund =? "succeeded"); [| by left].
  right. eexists _, _. split; [reflexivity |]. rewrite Hrow.
  unfold row_step. simpl. rewrite Hconf. repeat split; auto.
Qed.

Lemma stripe_webhook_writes (WEBHOOK_SECRET : option string) (payload : string)
    (sig_header : option string) :
  writes_one_row db (stripe_webhook stripe WEBHOOK_SECRET payload sig_header db).2.
Proof using Hinv.
  unfold stripe_webhook. unfold_M.
  destruct (Webhook_construct_event stripe _ _ _) as [e | event].
  { left. by destruct (is_ValueError_or_SignatureVerificationError e). }
  destruct (Event.type event =? "checkout.session.completed"); [| by left].
  destruct (Session.metadata (Event.data_object event) !! "payment_id")
    as [payment_id |]; [| by left].
  destruct (truthy (Some payment_id)); [| by left].
  destruct (db !! payment_id) as [payment |] eqn:Hrow; [| by left].
  destruct (Hinv _ _ Hrow) as [Hkey _].
  right. eexists _, _. split; [reflexivity |]. rewrite Hrow. simpl.
  repeat split; auto. by destruct (PaymentModel.status payment).
Qed.

Lemma handle_writes (WEBHOOK_SECRET : option string) (r : request) :
  writes_one_row db (handle WEBHOOK_SECRET stripe r db).2.
Proof using Hinv.
  destruct r as [uuid4 utcnow payment_request | payment_id | payment_id | payload sig_header];
    simpl; unfold fmap, M_fmap.
  - pose proof (create_payment_writes uuid4 utcnow payment_request) as Hw.
    by destruct (create_payment _ _ _ _ _) as [[e | a] db'].
  - pose proof (get_payment_writes payment_id) as Hw.
    by destruct (get_payment _ _ _) as [[e | a] db'].
  - pose proof (refund_payment_writes payment_id) as Hw.
    by destruct (refund_payment _ _ _) as [[e | a] db'].
  - pose proof (stripe_webhook_writes WEBHOOK_SECRET payload sig_header) as Hw.
    by destruct (stripe_webhook _ _ _ _ _) as [[e | a] db'].
Qed.
End writes.

(** [store_inv] holds of the empty table and is kept by every request. *)
Lemma writes_one_row_inv (db db' : Store) :
  store_inv db → writes_one_row db db' → store_inv db'.
Proof.
  intros Hinv [-> | (k & new & -> & Hkey & Hstep)]; [done |].
  intros k' p. rewrite lookup_insert. case_decide as Hk; [| by apply Hinv].
  intros [= <-]. subst k'. split; [done |]. intros Hset.
  destruct (db !! k) as [old |] eqn:Hold.
  - destruct Hstep as (_ & Hmoves & [Hsame | Hconf] & _); [| by left].
    rewrite Hsame in Hset. destruct (Hinv _ _ Hold) as [_ Hold_inv].
    destruct (Hold_inv Hset) as [Hst | Hst]; rewrite Hst in Hmoves;
      destruct (PaymentModel.status new); auto; discriminate.
  - destruct Hstep as [_ Hnone]. by rewrite Hnone in Hset.
Qed.

Lemma run_inv (WEBHOOK_SECRET : option string) (trace : list (StripeAPI * request))
    (db : Store) :
  store_inv db → store_inv (run WEBHOOK_SECRET trace db).
Proof.
  revert db. induction trace as [| [stripe r] trace IH]; intros db Hinv; simpl; [done |].
  apply IH. eapply writes_one_row_inv; [done |]. by apply handle_writes.
Qed.

(** On every table the service can reach, a row that carries a payment
    intent is [CONFIRMED] or [REFUNDED], and is stored under its own id. *)
Lemma reachable_inv (WEBHOOK_SECRET : option string) (db : Store) :
  reachable WEBHOOK_SECRET db → store_inv db.
Proof. intros [trace ->]. apply run_inv. intros k p. by rewrite lookup_empty. Qed.

(** No request removes a row, and the status of a stored row changes along
    [moves] only: never back to [PENDING], and from [CONFIRMED] to
    [REFUNDED] only. *)
Lemma handle_status_moves (WEBHOOK_SECRET : option string) (stripe : StripeAPI)
    (r : request) (db : Store) (k : string) (st : PaymentStatus) :
  store_inv db →
  status_of db k = Some st →
  ∃ st', status_of (handle WEBHOOK_SECRET stripe r db).2 k = Some st'
         ∧ moves st st' = true.
Proof.
  intros Hinv Hst.
  destruct (handle_writes stripe db Hinv WEBHOOK_SECRET r) as [-> | (k' & new & -> & _ & Hstep)].
  { exists st. split; [done |]. by destruct st. }
  unfold status_of in *. rewrite lookup_insert. case_decide as Hk.
  - subst k'. destruct (db !! k) as [old |]; [| done].
    injection Hst as <-. exists (PaymentModel.status new). split; [done |].
    by destruct Hstep as (_ & Hmoves & _).
  - exists st. split; [done |]. by destruct st.
Qed.

(** ** The scenarios, evaluated *)

Import Scenario.

Lemma reachable_run (WEBHOOK_SECRET : option string) (trace : list (StripeAPI * request))
    (db : Store) :
  reachable WEBHOOK_SECRET db → reachable WEBHOOK_SECRET (run WEBHOOK_SECRET trace db).
Proof.
  intros [trace0 ->]. exists (trace0 ++ trace)%list.
  generalize (∅ : Store).
  induction trace0 as [| [stripe r] trace0 IH]; intros db0; simpl; [done |].
  apply IH.
Qed.

(** C1 at its failing inputs. After create, confirming webhook and successful
    refund the row is [REFUNDED]; a [GET] while the processor still reports
    the session paid moves it back to [CONFIRMED], and so does a repeated
    delivery of the webhook. After create and a poll that finds the session
    expired the row is [FAILED]; a later [checkout.session.completed] webhook
    moves it to [CONFIRMED]. *)
Theorem status_leaves_terminal_states :
  reachable secret db_refunded
  ∧ status_of db_refunded pid = Some REFUNDED
  ∧ status_of (run secret [(paid, GET_payment pid)] db_refunded) pid = Some CONFIRMED
  ∧ status_of (run secret [(paid, webhook)] db_refunded) pid = Some CONFIRMED
  ∧ reachable secret db_failed
  ∧ status_of db_failed pid = Some FAILED
  ∧ status_of (run secret [(paid, webhook)] db_failed) pid = Some CONFIRMED.
Proof.
  split; [do 3 apply reachable_run; by exists [] |].
  split; [by vm_compute |]. split; [by vm_compute |]. split; [by vm_compute |].
  split; [do 2 apply reachable_run; by exists [] |].
  split; by vm_compute.
Qed.

(** C6 at its failing input. After create and a [GET] that finds the session
    paid, the row is [CONFIRMED] and its [stripe_payment_intent_id] is still
    unset, although the polled session carries a payment intent. *)
Theorem poll_confirms_without_charge_ref :
  let db := run secret [(open_, POST_payments pid now order); (paid, GET_payment pid)] ∅ in
  reachable secret db
  ∧ status_of db pid = Some CONFIRMED
  ∧ PaymentModel.stripe_payment_intent_id <$> db !! pid = Some None
  ∧ ∃ polled, checkout_Session_retrieve paid (Some "cs_test_1") = inr polled
              ∧ Session.payment_intent polled = Some "pi_1".
Proof.
  split; [by eexists |]. split; [by vm_compute |]. split; [by vm_compute |].
  by eexists.
Qed.

(** C5 as stated fails: a [CONFIRMED] row with a session id is polled too.
    With the processor answering, [get_payment] returns the confirmed row;
    with the processor unreachable, [get_payment] on the same table raises
    the processor's error instead of returning the row. *)
Lemma get_payment_polls_confirmed_row :
  status_of db_confirmed pid = Some CONFIRMED
  ∧ (get_payment paid pid db_confirmed).1 = inr (row CONFIRMED (Some "pi_1"))
  ∧ (get_payment stripe_down pid db_confirmed).1 = inl (StripeError "Connection error")
  ∧ ∀ payment, (get_payment stripe_down pid db_confirmed).1 ≠ inr payment.
Proof.
  split; [by vm_compute |]. split; [by vm_compute |]. split; [by vm_compute |].
  intros payment. by vm_compute.
Qed.

(** ** The theorems at the scenarios *)

Lemma db_pending_row : db_pending !! pid = Some (row PENDING None).
Proof. by vm_compute. Qed.

Lemma db_confirmed_row : db_confirmed !! pid = Some (row CONFIRMED (Some "pi_1")).
Proof. by vm_compute. Qed.

Lemma stripe_webhook_invalid_signature_witness :
  stripe_webhook paid secret "{}" (Some "forged") db_pending
    = (inl (HTTPException 400
              "No signatures found matching the expected signature for payload"),
       db_pending).
Proof. apply stripe_webhook_invalid_signature. reflexivity. Defined.

Lemma stripe_webhook_unmatched_ignored_witness :
  stripe_webhook (stripe "paid" "complete" refunded uncorrelated) secret "{}" (Some "good")
      db_pending
    = (inr ({["status" := "success"]} : gmap string string), db_pending)
  ∧ stripe_webhook (stripe "paid" "complete" refunded foreign) secret "{}" (Some "good")
      db_pending
    = (inr ({["status" := "success"]} : gmap string string), db_pending).
Proof.
  split.
  - apply (stripe_webhook_unmatched_ignored _ _ _ _ uncorrelated);
      [reflexivity | reflexivity | left; reflexivity].
  - apply (stripe_webhook_unmatched_ignored _ _ _ _ foreign);
      [reflexivity | reflexivity |].
    right. exists "someone-else". split; [reflexivity | vm_compute; reflexivity].
Defined.

Lemma stripe_webhook_other_event_frame_witness :
  stripe_webhook (stripe "paid" "complete" refunded charge_refunded) secret "{}" (Some "good")
      db_confirmed
    = (inr ({["status" := "success"]} : gmap string string), db_confirmed).
Proof.
  apply (stripe_webhook_other_event_frame _ _ _ _ charge_refunded);
    [reflexivity | simpl; discriminate].
Defined.

Lemma refund_payment_rejected_witness :
  refund_payment paid pid db_pending
    = (inl (HTTPException 400 "Payment cannot be refunded"), db_pending)
  ∧ refund_payment (stripe "paid" "complete" declined completed) pid db_confirmed
    = (inl (HTTPException 400 "Refund failed"), db_confirmed)
  ∧ refund_payment stripe_down pid db_confirmed
    = (inl (HTTPException 400 "Connection error"), db_confirmed).
Proof.
  split; [| split].
  - apply (proj1 (refund_payment_rejected paid pid _ db_pending db_pending_row)).
    simpl; discriminate.
  - apply (proj2 (refund_payment_rejected (stripe "paid" "complete" declined completed)
                    pid _ db_confirmed db_confirmed_row) eq_refl).
    simpl; discriminate.
  - exact (proj2 (refund_payment_rejected stripe_down pid _ db_confirmed db_confirmed_row)
             eq_refl).
Defined.

Lemma create_payment_pending_or_nothing_witness :
  (∃ row resp,
     create_payment open_ pid now order ∅ = (inr resp, <[pid := row]> ∅)
     ∧ PaymentModel.payment_id row = pid
     ∧ PaymentModel.status row = PENDING
     ∧ PaymentModel.stripe_session_id row = Some "cs_test_1"
     ∧ PaymentModel.stripe_payment_intent_id row = None
     ∧ size (<[pid := row]> (∅ : Store)) = 1%nat
     ∧ PaymentResponse.payment_id resp = pid
     ∧ PaymentResponse.status resp = PENDING
     ∧ PaymentResponse.checkout_url resp
       = Some "https://checkout.stripe.com/c/pay/cs_test_1")
  ∧ create_payment stripe_down "7d9f0c1e-0000-4000-8000-000000000002" now order db_pending
    = (inl (HTTPException 400 "Connection error"), db_pending).
Proof.
  split.
  - exact (create_payment_pending_or_nothing open_ pid now order 1000 ∅ eq_refl eq_refl).
  - exact (create_payment_pending_or_nothing stripe_down _ now order 1000 db_pending eq_refl).
Defined.

Lemma get_payment_sync_witness :
  get_payment expired pid db_pending
    = (inr (PaymentModel.set_status FAILED (row PENDING None)),
       <[pid := PaymentModel.set_status FAILED (row PENDING None)]> db_pending)
  ∧ get_payment paid pid db_pending
    = (inr (PaymentModel.set_status CONFIRMED (row PENDING None)),
       <[pid := PaymentModel.set_status CONFIRMED (row PENDING None)]> db_pending)
  ∧ get_payment paid "unknown" db_pending
    = (inl (HTTPException 404 "Payment not found"), db_pending).
Proof.
  pose proof (get_payment_sync expired pid db_pending) as Hexpired.
  pose proof (get_payment_sync paid pid db_pending) as Hpaid.
  pose proof (get_payment_sync paid "unknown" db_pending) as Hmiss.
  rewrite db_pending_row in Hexpired, Hpaid.
  split; [exact Hexpired |]. split; [exact Hpaid |].
  exact Hmiss.
Defined.

Lemma paid_report_idempotent_witness :
  ∃ a1 db1 a2 db2,
    handle secret paid webhook db_pending = (inr a1, db1)
    ∧ handle secret paid webhook db1 = (inr a2, db2)
    ∧ status_of db1 pid = Some CONFIRMED
    ∧ status_of db2 pid = Some CONFIRMED
    ∧ dom db1 = dom db_pending
    ∧ dom db2 = dom db_pending
    ∧ (webhook = webhook ∨ webhook = GET_payment pid → db2 = db1).
Proof.
  apply (paid_report_idempotent secret paid pid (row PENDING None) webhook webhook db_pending).
  - exact db_pending_row.
  - exists completed. repeat split. discriminate.
  - exists completed. repeat split. discriminate.
Defined.


(** * Further properties of the handlers *)

Import Fixtures.

(** ** Refund *)



(** X1. For a [CONFIRMED] row whose session the processor returns and whose
    refund, requested for that session's payment intent, comes back
    ["succeeded"], [refund_payment] returns the success message and the table
    is the old one with [REFUNDED] written into that row's status. *)
Theorem refund_payment_succeeds
    (stripe : StripeAPI) (payment_id : string) (payment : PaymentModel.t)
    (session : Session.t) (refund : Refund.t) (db : Store) :
  db !! payment_id = Some payment →
  PaymentModel.status payment = CONFIRMED →
  checkout_Session_retrieve stripe (PaymentModel.stripe_session_id payment) = inr session →
  Refund_create stripe (Session.payment_intent session) = inr refund →
  Refund.status refund = "succeeded" →
  refund_payment stripe payment_id db
    = (inr ({["message" := "Payment refunded successfully"]} : gmap string string),
       <[payment_id := PaymentModel.set_status REFUNDED payment]> db).
Proof.
  intros Hrow Hconf Hsess Hrefund Hok. unfold refund_payment. unfold_M.
  rewrite Hrow. rewrite bool_decide_eq_true_2 by done. simpl.
  by rewrite Hsess, Hrefund, Hok.
Qed.

(** X2. [refund_payment] for an id that is the key of no row raises
    [HTTPException(404, "Payment not found")] without consulting the
    processor, and the table is unchanged. *)
Theorem refund_payment_not_found (stripe : StripeAPI) (payment_id : string) (db : Store) :
  db !! payment_id = None →
  refund_payment stripe payment_id db
    = (inl (HTTPException 404 "Payment not found"), db).
Proof. intros Hrow. unfold refund_payment. unfold_M. by rewrite Hrow. Qed.


(** X4. [refund_payment] never reads the stored [stripe_payment_intent_id]:
    the refund is requested for the payment intent of the polled session, so
    the outcome is the same whatever payment intent the row carries. *)
Theorem refund_payment_ignores_stored_intent
    (stripe : StripeAPI) (payment_id : string) (payment : PaymentModel.t)
    (payment_intent : option string) (db : Store) :
  db !! payment_id = Some payment →
  (refund_payment stripe payment_id
     (<[payment_id := PaymentModel.set_stripe_payment_intent_id payment_intent payment]> db)).1
  = (refund_payment stripe payment_id db).1.
Proof.
  intros Hrow. unfold refund_payment. unfold_M.
  rewrite lookup_insert_eq, Hrow. simpl.
  destruct (bool_decide (PaymentModel.status payment = CONFIRMED)); simpl; [| done].
  destruct (checkout_Session_retrieve stripe _) as [e | session].
  { by destruct (is_StripeError e). }
  destruct (Refund_create stripe _) as [e | refund].
  { by destruct (is_StripeError e). }
  by destruct (Refund.status refund =? "succeeded").
Qed.

(** ** Webhook ingestion *)

(** X5. Whenever the construction of the event raises, [stripe_webhook]
    leaves the table unchanged; a [ValueError] (a payload that does not
    parse) or a [SignatureVerificationError] is turned into
    [HTTPException(400)] with the exception's message, and any other
    exception passes through as it is. *)
Theorem stripe_webhook_construct_event_raises
    (stripe : StripeAPI) (WEBHOOK_SECRET : option string)
    (payload : string) (sig_header : option string) (e : exn) (db : Store) :
  Webhook_construct_event stripe payload sig_header WEBHOOK_SECRET = inl e →
  stripe_webhook stripe WEBHOOK_SECRET payload sig_header db
    = (inl (if is_ValueError_or_SignatureVerificationError e
            then HTTPException 400 (str e) else e), db).
Proof.
  intros Hev. unfold stripe_webhook. unfold_M. rewrite Hev.
  by destruct (is_ValueError_or_SignatureVerificationError e).
Qed.

(** X6. Once the event is constructed, [stripe_webhook] returns the success
    body: whatever the event's type and metadata and whatever the table
    holds, a verified event is never answered with an error. *)
Theorem stripe_webhook_acknowledges
    (stripe : StripeAPI) (WEBHOOK_SECRET : option string)
    (payload : string) (sig_header : option string) (event : Event.t) (db : Store) :
  Webhook_construct_event stripe payload sig_header WEBHOOK_SECRET = inr event →
  (stripe_webhook stripe WEBHOOK_SECRET payload sig_header db).1
    = inr ({["status" := "success"]} : gmap string string).
Proof.
  intros Hev. unfold stripe_webhook. unfold_M. rewrite Hev.
  destruct (Event.type event =? "checkout.session.completed"); [| done].
  simpl. destruct (Session.metadata (Event.data_object event) !! "payment_id")
    as [payment_id |]; [| done].
  destruct (truthy (Some payment_id)); [| done].
  by destruct (db !! payment_id).
Qed.

(** X7. A [checkout.session.completed] event whose [payment_id] metadata is
    the empty string is acknowledged and changes nothing, even when a row is
    stored under the empty string: the id is tested for truth before the
    lookup. *)
Theorem stripe_webhook_blank_payment_id
    (stripe : StripeAPI) (WEBHOOK_SECRET : option string)
    (payload : string) (sig_header : option string) (event : Event.t) (db : Store) :
  Webhook_construct_event stripe payload sig_header WEBHOOK_SECRET = inr event →
  Session.metadata (Event.data_object event) !! "payment_id" = Some "" →
  stripe_webhook stripe WEBHOOK_SECRET payload sig_header db
    = (inr ({["status" := "success"]} : gmap string string), db).
Proof.
  intros Hev Hblank. unfold stripe_webhook. unfold_M. rewrite Hev.
  destruct (Event.type event =? "checkout.session.completed"); [| done].
  simpl. by rewrite Hblank.
Qed.

(** X8. A signed [checkout.session.completed] event that names a stored row
    writes [CONFIRMED] and the event's payment intent into that row,
    whatever the row's status was (the handler has no status guard; a row
    confirmed by a poll gets its payment intent this way); the row's other
    columns and all other rows are unchanged. *)
Theorem stripe_webhook_records_payment_intent
    (stripe : StripeAPI) (WEBHOOK_SECRET : option string)
    (payload : string) (sig_header : option string) (event : Event.t)
    (payment_id : string) (payment : PaymentModel.t) (db : Store) :
  Webhook_construct_event stripe payload sig_header WEBHOOK_SECRET = inr event →
  Event.type event = "checkout.session.completed" →
  Session.metadata (Event.data_object event) !! "payment_id" = Some payment_id →
  payment_id ≠ "" →
  db !! payment_id = Some payment →
  ∃ payment',
    stripe_webhook stripe WEBHOOK_SECRET payload sig_header db
      = (inr ({["status" := "success"]} : gmap string string),
         <[payment_id := payment']> db)
    ∧ PaymentModel.status payment' = CONFIRMED
    ∧ PaymentModel.stripe_payment_intent_id payment'
      = Session.payment_intent (Event.data_object event)
    ∧ business_fields payment' = business_fields payment.
Proof.
  intros Hev Hty Hpid Hne Hrow. eexists. split.
  { by apply stripe_webhook_confirms. }
  done.
Qed.

(** ** What a request leaves alone *)

Lemma create_payment_effect (stripe : StripeAPI) (uuid4 : string) (utcnow : datetime)
    (payment_request : PaymentRequest.t) (db : Store) :
  (create_payment stripe uuid4 utcnow payment_request db).2 = db
  ∨ inserts_a_row stripe (POST_payments uuid4 utcnow payment_request) db
      (create_payment stripe uuid4 utcnow payment_request db).2.
Proof.
  unfold create_payment. unfold_M.
  destruct (int_of_float _) as [e | stripe_amount] eqn:Hcents; [by left |].
  destruct (checkout_Session_create stripe _) as [e | checkout_session] eqn:Hcreate.
  { left. by destruct (is_StripeError e). }
  simpl. destruct (db !! uuid4) eqn:Hrow; simpl; [by left |].
  right. by exists uuid4, utcnow, payment_request, stripe_amount, checkout_session.
Qed.

Lemma get_payment_effect (stripe : StripeAPI) (payment_id : string) (db : Store) :
  (get_payment stripe payment_id db).2 = db
  ∨ rewrites_a_row db (get_payment stripe payment_id db).2.
Proof.
  unfold get_payment. unfold_M.
  destruct (db !! payment_id) as [payment |] eqn:Hrow; [| by left].
  destruct (truthy _); [| by left].
  destruct (checkout_Session_retrieve stripe _) as [e | session]; [by left |].
  destruct (_ && _).
  { right. by eexists payment_id, payment, _. }
  destruct (_ && _); [| by left].
  right. by eexists payment_id, payment, _.
Qed.

Lemma refund_payment_effect (stripe : StripeAPI) (payment_id : string) (db : Store) :
  (refund_payment stripe payment_id db).2 = db
  ∨ rewrites_a_row db (refund_payment stripe payment_id db).2.
Proof.
  unfold refund_payment. unfold_M.
  destruct (db !! payment_id) as [payment |] eqn:Hrow; [| by left].
  destruct (negb _); [by left |].
  destruct (checkout_Session_retrieve stripe _) as [e | session].
  { left. by destruct (is_StripeError e). }
  destruct (Refund_create stripe _) as [e | refund].
  { left. by destruct (is_StripeError e). }
  destruct (Refund.status refund =? "succeeded"); [| by left].
  right. by eexists payment_id, payment, _.
Qed.

Lemma stripe_webhook_effect (stripe : StripeAPI) (WEBHOOK_SECRET : option string)
    (payload : string) (sig_header : option string) (db : Store) :
  (stripe_webhook stripe WEBHOOK_SECRET payload sig_header db).2 = db
  ∨ rewrites_a_row db (stripe_webhook stripe WEBHOOK_SECRET payload sig_header db).2.
Proof.
  unfold stripe_webhook. unfold_M.
  destruct (Webhook_construct_event stripe _ _ _) as [e | event].
  { left. by destruct (is_ValueError_or_SignatureVerificationError e). }
  destruct (Event.type event =? "checkout.session.completed"); [| by left].
  destruct (Session.metadata (Event.data_object event) !! "payment_id")
    as [payment_id |]; [| by left].
  destruct (truthy (Some payment_id)); [| by left].
  destruct (db !! payment_id) as [payment |] eqn:Hrow; [| by left].
  right. by eexists payment_id, payment, _.
Qed.

Lemma handle_effect (WEBHOOK_SECRET : option string) (stripe : StripeAPI)
    (r : request) (db : Store) :
  (handle WEBHOOK_SECRET stripe r db).2 = db
  ∨ rewrites_a_row db (handle WEBHOOK_SECRET stripe r db).2
  ∨ inserts_a_row stripe r db (handle WEBHOOK_SECRET stripe r db).2.
Proof.
  destruct r as [uuid4 utcnow payment_request | payment_id | payment_id | payload sig_header];
    simpl; unfold fmap, M_fmap.
  - pose proof (create_payment_effect stripe uuid4 utcnow payment_request db) as Heff.
    destruct (create_payment _ _ _ _ _) as [[e | a] db']; simpl in *; tauto.
  - pose proof (get_payment_effect stripe payment_id db) as Heff.
    destruct (get_payment _ _ _) as [[e | a] db']; simpl in *; tauto.
  - pose proof (refund_payment_effect stripe payment_id db) as Heff.
    destruct (refund_payment _ _ _) as [[e | a] db']; simpl in *; tauto.
  - pose proof (stripe_webhook_effect stripe WEBHOOK_SECRET payload sig_header db) as Heff.
    destruct (stripe_webhook _ _ _ _ _) as [[e | a] db']; simpl in *; tauto.
Qed.

Lemma handle_keeps_business_fields (WEBHOOK_SECRET : option string) (stripe : StripeAPI)
    (r : request) (db : Store) (k : string) (p : PaymentModel.t) :
  db !! k = Some p →
  ∃ p', (handle WEBHOOK_SECRET stripe r db).2 !! k = Some p'
        ∧ business_fields p' = business_fields p.
Proof.
  intros Hrow.
  destruct (handle_effect WEBHOOK_SECRET stripe r db)
    as [-> | [(k' & old & new & Hold & -> & Hsame)
             | (uuid4 & utcnow & req & n & cs & _ & _ & _ & Hfree & ->)]].
  - by exists p.
  - rewrite lookup_insert. case_decide as Hk; [| by exists p].
    subst k'. exists new. split; [done |]. congruence.
  - rewrite lookup_insert. case_decide as Hk; [congruence | by exists p].
Qed.

(** X9. No sequence of requests removes a row or changes its [payment_id],
    [amount], [currency], [order_id], [customer_id], [payment_method],
    [created_at], [metadata] or [stripe_session_id]: only [status] and
    [stripe_payment_intent_id] of a stored row are ever assigned. *)
Theorem run_keeps_business_fields (WEBHOOK_SECRET : option string)
    (trace : list (StripeAPI * request)) (db : Store) (k : string) (p : PaymentModel.t) :
  db !! k = Some p →
  ∃ p', run WEBHOOK_SECRET trace db !! k = Some p'
        ∧ business_fields p' = business_fields p.
Proof.
  revert db p. induction trace as [| [stripe r] trace IH]; intros db p Hrow; simpl.
  { by exists p. }
  destruct (handle_keeps_business_fields WEBHOOK_SECRET stripe r db k p Hrow)
    as (p1 & Hrow1 & Hsame1).
  destruct (IH _ _ Hrow1) as (p' & Hrow' & Hsame').
  exists p'. split; [done |]. congruence.
Qed.

(** X10. A request never removes a key, and the only key it can add is the
    generated id of a [create_payment]: [get_payment], [refund_payment] and
    [stripe_webhook] leave the set of stored ids as it is. *)
Theorem handle_ids (WEBHOOK_SECRET : option string) (stripe : StripeAPI)
    (r : request) (db : Store) :
  dom db ⊆ dom (handle WEBHOOK_SECRET stripe r db).2
  ∧ dom (handle WEBHOOK_SECRET stripe r db).2 ⊆ dom db ∪ new_ids r.
Proof.
  destruct (handle_effect WEBHOOK_SECRET stripe r db)
    as [-> | [(k' & old & new & Hold & -> & Hsame)
             | (uuid4 & utcnow & req & n & cs & -> & _ & _ & Hfree & ->)]].
  - set_solver.
  - assert (Hdom : dom (<[k' := new]> db) = dom db).
    { apply dom_insert_lookup_L. by rewrite Hold. }
    rewrite Hdom. split; [done | apply union_subseteq_l].
  - rewrite dom_insert_L. simpl. split; [apply union_subseteq_r |].
    by rewrite (comm_L (∪)).
Qed.

Lemma handle_raised (WEBHOOK_SECRET : option string) (stripe : StripeAPI)
    (r : request) (db db' : Store) (e : exn) :
  handle WEBHOOK_SECRET stripe r db = (inl e, db') → db' = db.
Proof.
  destruct r as [uuid4 utcnow payment_request | payment_id | payment_id | payload sig_header];
    simpl; unfold fmap, M_fmap.
  - unfold create_payment. unfold_M.
    destruct (int_of_float _) as [e0 | stripe_amount]; [by intros [= _ <-] |].
    destruct (checkout_Session_create stripe _) as [e0 | checkout_session].
    { destruct (is_StripeError e0); by intros [= _ <-]. }
    simpl. destruct (db !! uuid4); simpl; [by intros [= _ <-] | done].
  - unfold get_payment. unfold_M.
    destruct (db !! payment_id) as [payment |]; [| by intros [= _ <-]].
    destruct (truthy _); [| done].
    destruct (checkout_Session_retrieve stripe _) as [e0 | session]; [by intros [= _ <-] |].
    destruct (_ && _); [done |]. by destruct (_ && _).
  - unfold refund_payment. unfold_M.
    destruct (db !! payment_id) as [payment |]; [| by intros [= _ <-]].
    destruct (negb _); [by intros [= _ <-] |].
    destruct (checkout_Session_retrieve stripe _) as [e0 | session].
    { destruct (is_StripeError e0); by intros [= _ <-]. }
    destruct (Refund_create stripe _) as [e0 | refund].
    { destruct (is_StripeError e0); by intros [= _ <-]. }
    destruct (Refund.status refund =? "succeeded"); [done | by intros [= _ <-]].
  - unfold stripe_webhook. unfold_M.
    destruct (Webhook_construct_event stripe _ _ _) as [e0 | event].
    { destruct (is_ValueError_or_SignatureVerificationError e0); by intros [= _ <-]. }
    destruct (Event.type event =? "checkout.session.completed"); [| done].
    destruct (Session.metadata (Event.data_object event) !! "payment_id")
      as [pid |]; [| done].
    destruct (truthy (Some pid)); [| done].
    by destruct (db !! pid).
Qed.

(** X20. A request that raises has written nothing: in every handler each
    exception is raised before the first commit. *)
Theorem handle_raises_unchanged (WEBHOOK_SECRET : option string) (stripe : StripeAPI)
    (r : request) (db : Store) (e : exn) :
  (handle WEBHOOK_SECRET stripe r db).1 = inl e →
  (handle WEBHOOK_SECRET stripe r db).2 = db.
Proof.
  destruct (handle WEBHOOK_SECRET stripe r db) as [res db'] eqn:Hrun. simpl.
  intros ->. by eapply handle_raised.
Qed.

(** ** Tables the service can reach *)

Lemma run_status_closed (WEBHOOK_SECRET : option string)
    (trace : list (StripeAPI * request)) (db : Store) (k : string) (st : PaymentStatus) :
  store_inv db →
  status_of db k = Some st →
  ∃ st', status_of (run WEBHOOK_SECRET trace db) k = Some st'
         ∧ (st ≠ PENDING → st' ≠ PENDING)
         ∧ (st = CONFIRMED ∨ st = REFUNDED → st' = CONFIRMED ∨ st' = REFUNDED).
Proof.
  revert db st. induction trace as [| [stripe r] trace IH]; intros db st Hinv Hst; simpl.
  { by exists st. }
  destruct (handle_status_moves WEBHOOK_SECRET stripe r db k st Hinv Hst)
    as (st1 & Hst1 & Hmoves).
  assert (Hinv1 : store_inv (handle WEBHOOK_SECRET stripe r db).2).
  { eapply writes_one_row_inv; [done |]. by apply handle_writes. }
  destruct (IH _ _ Hinv1 Hst1) as (st' & Hst' & Hpending & Hpaid).
  exists st'. split; [done |]. split.
  - intros Hne. apply Hpending. by destruct st, st1.
  - intros Hin. apply Hpaid. destruct Hin as [-> | ->]; destruct st1; auto; discriminate.
Qed.

(** X11. On a table the service can reach, whatever requests follow: a row
    that has left [PENDING] is never [PENDING] again, and a row that is
    [CONFIRMED] or [REFUNDED] stays [CONFIRMED] or [REFUNDED] (a payment
    once confirmed is never reported [FAILED]). *)
Theorem reachable_status_closed (WEBHOOK_SECRET : option string)
    (trace : list (StripeAPI * request)) (db : Store) (k : string) (st : PaymentStatus) :
  reachable WEBHOOK_SECRET db →
  status_of db k = Some st →
  ∃ st', status_of (run WEBHOOK_SECRET trace db) k = Some st'
         ∧ (st ≠ PENDING → st' ≠ PENDING)
         ∧ (st = CONFIRMED ∨ st = REFUNDED → st' = CONFIRMED ∨ st' = REFUNDED).
Proof.
  intros Hreach Hst. apply run_status_closed; [| done]. by eapply reachable_inv.
Qed.

(** X12. On a table the service can reach, a row whose
    [stripe_payment_intent_id] is set is [CONFIRMED] or [REFUNDED]: a
    [PENDING] or [FAILED] row never carries a payment intent. *)
Theorem reachable_payment_intent_confirmed (WEBHOOK_SECRET : option string)
    (db : Store) (k : string) (p : PaymentModel.t) :
  reachable WEBHOOK_SECRET db →
  db !! k = Some p →
  is_Some (PaymentModel.stripe_payment_intent_id p) →
  PaymentModel.status p = CONFIRMED ∨ PaymentModel.status p = REFUNDED.
Proof.
  intros Hreach Hrow [payment_intent Hset].
  destruct (reachable_inv _ _ Hreach _ _ Hrow) as [_ Hinv].
  apply Hinv. by rewrite Hset.
Qed.

Lemma handle_rows_complete (WEBHOOK_SECRET : option string) (stripe : StripeAPI)
    (r : request) (db : Store) :
  rows_complete db → rows_complete (handle WEBHOOK_SECRET stripe r db).2.
Proof.
  intros Hall.
  destruct (handle_effect WEBHOOK_SECRET stripe r db)
    as [-> | [(k' & old & new & Hold & -> & Hsame)
             | (uuid4 & utcnow & req & n & cs & _ & _ & _ & Hfree & ->)]]; [done | |].
  - intros k p. rewrite lookup_insert. case_decide as Hk; [| by apply Hall].
    intros [= <-]. destruct (Hall _ _ Hold) as [Hcreated Hsession].
    unfold business_fields in Hsame. injection Hsame as _ _ _ _ _ _ -> _ ->. done.
  - intros k p. rewrite lookup_insert. case_decide as Hk; [| by apply Hall].
    intros [= <-]. simpl. split; by eexists.
Qed.

(** X13. On a table the service can reach, every row has its [created_at]
    and its [stripe_session_id] set: rows only come from [create_payment],
    which stores the session id the processor returned and lets the column
    default fill the creation time, and neither column is assigned after. *)
Theorem reachable_rows_complete (WEBHOOK_SECRET : option string)
    (db : Store) (k : string) (p : PaymentModel.t) :
  reachable WEBHOOK_SECRET db →
  db !! k = Some p →
  is_Some (PaymentModel.created_at p) ∧ is_Some (PaymentModel.stripe_session_id p).
Proof.
  intros [trace ->]. revert k p.
  change (rows_complete (run WEBHOOK_SECRET trace ∅)).
  assert (Hempty : rows_complete ∅) by (intros k p; by rewrite lookup_empty).
  revert Hempty. generalize (∅ : Store).
  induction trace as [| [stripe r] trace IH]; intros db Hall; simpl; [done |].
  apply IH. by apply handle_rows_complete.
Qed.

(** ** Query and sync, create *)

Lemma set_status_same (p : PaymentModel.t) :
  PaymentModel.set_status (PaymentModel.status p) p = p.
Proof. by destruct p. Qed.

(** A [get_payment] that returns has found a row; the returned row is what
    the table holds afterwards and differs from the row found in its status
    at most. *)
Lemma get_payment_returned (stripe : StripeAPI) (payment_id : string)
    (db db' : Store) (payment' : PaymentModel.t) :
  get_payment stripe payment_id db = (inr payment', db') →
  ∃ payment, db !! payment_id = Some payment
    ∧ db' = <[payment_id := payment']> db
    ∧ payment' = PaymentModel.set_status (PaymentModel.status payment') payment.
Proof.
  unfold get_payment. unfold_M.
  destruct (db !! payment_id) as [payment |] eqn:Hrow; [| done].
  assert (Hsame : ∀ res : exn + PaymentModel.t,
            (res, db) = (inr payment', db') →
            res = inr payment →
            ∃ payment0, Some payment = Some payment0
              ∧ db' = <[payment_id := payment']> db
              ∧ payment' = PaymentModel.set_status (PaymentModel.status payment') payment0).
  { intros res [= -> <-] [= ->]. exists payment.
    by rewrite (insert_id db payment_id payment Hrow), set_status_same. }
  destruct (truthy _); [| intros Heq; by eapply Hsame].
  destruct (checkout_Session_retrieve stripe _) as [e | session]; [done |].
  destruct (_ && _).
  { intros [= <- <-]. by exists payment. }
  destruct (_ && _); [| intros Heq; by eapply Hsame].
  intros [= <- <-]. by exists payment.
Qed.

(** X14. When [get_payment] returns a row, that row is what the table holds
    under the id afterwards; compared with the row stored before, it has
    the same business columns and the same [stripe_payment_intent_id] (a
    poll changes the status only), and no other row is touched. *)
Theorem get_payment_returns_stored_row (stripe : StripeAPI) (payment_id : string)
    (db db' : Store) (payment' : PaymentModel.t) :
  get_payment stripe payment_id db = (inr payment', db') →
  db' !! payment_id = Some payment'
  ∧ (∀ k, k ≠ payment_id → db' !! k = db !! k)
  ∧ ∃ payment, db !! payment_id = Some payment
      ∧ business_fields payment' = business_fields payment
      ∧ PaymentModel.stripe_payment_intent_id payment'
        = PaymentModel.stripe_payment_intent_id payment.
Proof.
  intros Hget.
  destruct (get_payment_returned _ _ _ _ _ Hget) as (payment & Hrow & -> & Hdiff).
  split; [apply lookup_insert_eq |]. split.
  { intros k Hk. by apply lookup_insert_ne. }
  exists payment. split; [done |]. by rewrite Hdiff.
Qed.

Lemma create_payment_accepted
    (stripe : StripeAPI) (uuid4 : string) (utcnow : datetime)
    (payment_request : PaymentRequest.t) (stripe_amount : Z)
    (checkout_session : Session.t) (db : Store) :
  int_of_float (PrimFloat.mul (PaymentRequest.amount payment_request) 100) = inr stripe_amount →
  checkout_Session_create stripe (checkout_params uuid4 stripe_amount payment_request)
    = inr checkout_session →
  db !! uuid4 = None →
  create_payment stripe uuid4 utcnow payment_request db
    = (inr {| PaymentResponse.payment_id := uuid4;
              PaymentResponse.status := PENDING;
              PaymentResponse.amount := PaymentRequest.amount payment_request;
              PaymentResponse.currency := PaymentRequest.currency payment_request;
              PaymentResponse.created_at := isoformat utcnow;
              PaymentResponse.order_id := PaymentRequest.order_id payment_request;
              PaymentResponse.checkout_url := Session.url checkout_session |},
       <[uuid4 := PaymentModel.default_created_at utcnow
                    (db_payment_of uuid4 payment_request checkout_session)]> db).
Proof.
  intros Hcents Hcreate Hfree. unfold create_payment. unfold_M.
  rewrite Hcents, Hcreate. simpl. by rewrite Hfree.
Qed.

(** X19. An accepted [create_payment] answers with the generated id, status
    [PENDING], the request's [amount], [currency] (as sent by the caller,
    not the lower-cased code sent to the processor) and [order_id], the
    insertion time in ISO format, and the processor's checkout URL. *)
Theorem create_payment_response
    (stripe : StripeAPI) (uuid4 : string) (utcnow : datetime)
    (payment_request : PaymentRequest.t) (stripe_amount : Z)
    (checkout_session : Session.t) (db : Store) :
  int_of_float (PrimFloat.mul (PaymentRequest.amount payment_request) 100) = inr stripe_amount →
  checkout_Session_create stripe (checkout_params uuid4 stripe_amount payment_request)
    = inr checkout_session →
  db !! uuid4 = None →
  (create_payment stripe uuid4 utcnow payment_request db).1
    = inr {| PaymentResponse.payment_id := uuid4;
             PaymentResponse.status := PENDING;
             PaymentResponse.amount := PaymentRequest.amount payment_request;
             PaymentResponse.currency := PaymentRequest.currency payment_request;
             PaymentResponse.created_at := isoformat utcnow;
             PaymentResponse.order_id := PaymentRequest.order_id payment_request;
             PaymentResponse.checkout_url := Session.url checkout_session |}.
Proof.
  intros Hcents Hcreate Hfree.
  by rewrite (create_payment_accepted _ _ _ _ _ _ _ Hcents Hcreate Hfree).
Qed.


(** X17. The life of a payment: an accepted [create_payment], then a signed
    [checkout.session.completed] webhook whose session carries the
    correlation metadata the create request sent, then a refund the processor
    reports ["succeeded"], leave the row of the generated id [REFUNDED], with
    the event's payment intent and the business columns of the request. *)
Theorem payment_lifecycle (WEBHOOK_SECRET : option string)
    (stripe1 stripe2 stripe3 : StripeAPI) (uuid4 : string) (utcnow : datetime)
    (payment_request : PaymentRequest.t) (stripe_amount : Z)
    (checkout_session : Session.t) (payload : string) (sig_header : option string)
    (event : Event.t) (session : Session.t) (refund : Refund.t) (db : Store) :
  uuid4 ≠ "" →
  db !! uuid4 = None →
  int_of_float (PrimFloat.mul (PaymentRequest.amount payment_request) 100) = inr stripe_amount →
  checkout_Session_create stripe1 (checkout_params uuid4 stripe_amount payment_request)
    = inr checkout_session →
  Webhook_construct_event stripe2 payload sig_header WEBHOOK_SECRET = inr event →
  Event.type event = "checkout.session.completed" →
  Session.metadata (Event.data_object event)
    = SessionParams.metadata (checkout_params uuid4 stripe_amount payment_request) →
  checkout_Session_retrieve stripe3 (Some (Session.id checkout_session)) = inr session →
  Refund_create stripe3 (Session.payment_intent session) = inr refund →
  Refund.status refund = "succeeded" →
  run WEBHOOK_SECRET
      [(stripe1, POST_payments uuid4 utcnow payment_request);
       (stripe2, POST_webhook payload sig_header);
       (stripe3, POST_refund uuid4)] db !! uuid4
  = Some (PaymentModel.set_status REFUNDED
            (PaymentModel.set_stripe_payment_intent_id
               (Session.payment_intent (Event.data_object event))
               (PaymentModel.default_created_at utcnow
                  (db_payment_of uuid4 payment_request checkout_session)))).
Proof.
  intros Hne Hfree Hcents Hcreate Hev Hty Hecho Hsess Hrefund Hok.
  cbn [run]. cbn [handle]. unfold fmap at 3, M_fmap.
  rewrite (create_payment_accepted _ _ _ _ _ _ _ Hcents Hcreate Hfree). cbn [snd].
  set (row0 := PaymentModel.default_created_at utcnow _).
  assert (Hpid : Session.metadata (Event.data_object event) !! "payment_id" = Some uuid4).
  { rewrite Hecho. simpl. apply lookup_insert_eq. }
  unfold fmap at 2, M_fmap.
  rewrite (stripe_webhook_confirms _ _ _ _ _ _ row0 _ Hev Hty Hpid Hne
             (lookup_insert_eq _ _ _)). cbn [snd].
  rewrite insert_insert_eq.
  unfold fmap, M_fmap, refund_payment. unfold_M.
  rewrite lookup_insert_eq. simpl. rewrite Hsess, Hrefund, Hok. simpl.
  by rewrite lookup_insert_eq.
Qed.

(** ** The API key *)


(** ** The further properties at the scenarios *)

Lemma db_polled_row : db_polled !! pid = Some (row CONFIRMED None).
Proof. by vm_compute. Qed.

Lemma refund_payment_succeeds_witness :
  refund_payment paid pid db_confirmed
    = (inr ({["message" := "Payment refunded successfully"]} : gmap string string),
       <[pid := PaymentModel.set_status REFUNDED (row CONFIRMED (Some "pi_1"))]> db_confirmed).
Proof.
  apply (refund_payment_succeeds paid pid _ (session "paid" "complete")
           {| Refund.status := "succeeded" |} db_confirmed db_confirmed_row);
    reflexivity.
Defined.

Lemma refund_payment_not_found_witness :
  refund_payment paid "unknown" db_pending
    = (inl (HTTPException 404 "Payment not found"), db_pending).
Proof. apply refund_payment_not_found. by vm_compute. Defined.


Lemma refund_payment_ignores_stored_intent_witness :
  (refund_payment paid pid
     (<[pid := PaymentModel.set_stripe_payment_intent_id None (row CONFIRMED (Some "pi_1"))]>
        db_confirmed)).1
  = (refund_payment paid pid db_confirmed).1.
Proof. apply refund_payment_ignores_stored_intent. exact db_confirmed_row. Defined.

Lemma stripe_webhook_construct_event_raises_witness :
  stripe_webhook stripe_down secret "not json" (Some "good") db_pending
    = (inl (HTTPException 400 "Invalid payload"), db_pending).
Proof.
  exact (stripe_webhook_construct_event_raises stripe_down secret "not json" (Some "good")
           (ValueError "Invalid payload") db_pending eq_refl).
Defined.

Lemma stripe_webhook_acknowledges_witness :
  (stripe_webhook (stripe "paid" "complete" refunded foreign) secret "{}" (Some "good")
     db_refunded).1
  = inr ({["status" := "success"]} : gmap string string).
Proof. apply (stripe_webhook_acknowledges _ _ _ _ foreign). reflexivity. Defined.

Lemma stripe_webhook_blank_payment_id_witness :
  is_Some (db_blank !! "")
  ∧ stripe_webhook (stripe "paid" "complete" refunded blank_id) secret "{}" (Some "good")
      db_blank
    = (inr ({["status" := "success"]} : gmap string string), db_blank).
Proof.
  split; [eexists; vm_compute; reflexivity |].
  apply (stripe_webhook_blank_payment_id _ _ _ _ blank_id); reflexivity.
Defined.

Lemma stripe_webhook_records_payment_intent_witness :
  ∃ payment',
    stripe_webhook paid secret "{}" (Some "good") db_polled
      = (inr ({["status" := "success"]} : gmap string string), <[pid := payment']> db_polled)
    ∧ PaymentModel.status payment' = CONFIRMED
    ∧ PaymentModel.stripe_payment_intent_id payment' = Some "pi_1"
    ∧ business_fields payment' = business_fields (row CONFIRMED None).
Proof.
  apply (stripe_webhook_records_payment_intent paid secret "{}" (Some "good") completed
           pid (row CONFIRMED None) db_polled);
    [reflexivity | reflexivity | reflexivity | discriminate | exact db_polled_row].
Defined.

Lemma run_keeps_business_fields_witness :
  ∃ p', run secret [(paid, webhook); (paid, POST_refund pid)] db_pending !! pid = Some p'
        ∧ business_fields p' = business_fields (row PENDING None).
Proof. apply run_keeps_business_fields. exact db_pending_row. Defined.

Lemma handle_raises_unchanged_witness :
  (handle secret stripe_down (GET_payment pid) db_pending).2 = db_pending.
Proof.
  apply (handle_raises_unchanged _ _ _ _ (StripeError "Connection error")).
  by vm_compute.
Defined.

Lemma reachable_db_confirmed : reachable secret db_confirmed.
Proof. by exists [(open_, POST_payments pid now order); (paid, webhook)]. Qed.

Lemma reachable_status_closed_witness :
  ∃ st', status_of (run secret [(paid, POST_refund pid); (paid, GET_payment pid)]
                      db_confirmed) pid = Some st'
         ∧ (CONFIRMED ≠ PENDING → st' ≠ PENDING)
         ∧ (CONFIRMED = CONFIRMED ∨ CONFIRMED = REFUNDED → st' = CONFIRMED ∨ st' = REFUNDED).
Proof.
  apply reachable_status_closed; [exact reachable_db_confirmed | by vm_compute].
Defined.

Lemma reachable_payment_intent_confirmed_witness :
  PaymentModel.status (row CONFIRMED (Some "pi_1")) = CONFIRMED
  ∨ PaymentModel.status (row CONFIRMED (Some "pi_1")) = REFUNDED.
Proof.
  apply (reachable_payment_intent_confirmed secret db_confirmed pid);
    [exact reachable_db_confirmed | exact db_confirmed_row | by eexists].
Defined.

Lemma reachable_rows_complete_witness :
  is_Some (PaymentModel.created_at (row CONFIRMED (Some "pi_1")))
  ∧ is_Some (PaymentModel.stripe_session_id (row CONFIRMED (Some "pi_1"))).
Proof.
  apply (reachable_rows_complete secret db_confirmed pid);
    [exact reachable_db_confirmed | exact db_confirmed_row].
Defined.

Lemma get_payment_returns_stored_row_witness :
  <[pid := row FAILED None]> db_pending !! pid = Some (row FAILED None)
  ∧ (∀ k, k ≠ pid → <[pid := row FAILED None]> db_pending !! k = db_pending !! k)
  ∧ ∃ payment, db_pending !! pid = Some payment
      ∧ business_fields (row FAILED None) = business_fields payment
      ∧ PaymentModel.stripe_payment_intent_id (row FAILED None)
        = PaymentModel.stripe_payment_intent_id payment.
Proof.
  apply (get_payment_returns_stored_row expired pid db_pending). by vm_compute.
Defined.

Lemma create_payment_response_witness :
  (create_payment open_ pid now order ∅).1
    = inr {| PaymentResponse.payment_id := pid;
             PaymentResponse.status := PENDING;
             PaymentResponse.amount := 10%float;
             PaymentResponse.currency := "usd";
             PaymentResponse.created_at := "2024-05-17T09:30:00";
             PaymentResponse.order_id := "o1";
             PaymentResponse.checkout_url :=
               Some "https://checkout.stripe.com/c/pay/cs_test_1" |}.
Proof.
  exact (create_payment_response open_ pid now order 1000 (session "unpaid" "open") ∅
           eq_refl eq_refl eq_refl).
Defined.


Lemma payment_lifecycle_witness :
  status_of
    (run secret
       [(echo "unpaid" "open", POST_payments pid now order);
        (echo "paid" "complete", POST_webhook "{}" (Some "t=1,v1=ab"));
        (echo "paid" "complete", POST_refund pid)] ∅) pid
  = Some REFUNDED.
Proof.
  unfold status_of.
  erewrite (payment_lifecycle secret (echo "unpaid" "open") (echo "paid" "complete")
              (echo "paid" "complete") pid now order 1000);
    [reflexivity | discriminate | reflexivity | reflexivity | reflexivity
    | reflexivity | reflexivity | reflexivity | reflexivity | reflexivity | reflexivity].
Defined.


Lemma create_payment_no_cents_witness :
  create_payment paid pid now
      (PaymentRequest.mk infinity "usd" "o1" "card" None None
         "https://shop.example/ok" "https://shop.example/cancel") db_pending
    = (inl (OverflowError "cannot convert float infinity to integer"), db_pending).
Proof. apply create_payment_no_cents. reflexivity. Defined.

Lemma create_payment_id_taken_witness :
  create_payment open_ pid now order db_pending
    = (inl (IntegrityError "duplicate key value violates unique constraint"), db_pending).
Proof.
  apply (create_payment_id_taken open_ pid now order 1000 (session "unpaid" "open"));
    [eexists; exact db_pending_row | reflexivity | reflexivity].
Defined.
